(** * Plot3D: the cross-section renderable ([Plot3D/objects/base_surface_contour.py])

    A shallow embedding of class [BaseCrossSection]: the constructor, the
    [array] setter, the texture and buffer methods, [initialize] and [render].

    Modelling conventions.
    - Python floats and numpy [float32]/[float64] samples are exact rationals
      ([Q]); rounding is not modelled, nor are nan and inf: what a division
      by zero yields is left unstated.  A numpy array is its dtype tag, its
      shape and its samples in C order.
    - A method is a computation over the pair (instance, world) that either
      returns or raises; a raise keeps the state reached at that point.
    - The world holds the chronological list of OpenGL commands issued (newest
      first), the lines printed on standard output and the class attributes.
      What the issued commands mean for texture objects is given by
      [gl_state], which follows the OpenGL specification.
    - OpenGL commands are assumed to succeed; the names they return are given
      by the driver ([GLDriver]). *)

From Stdlib Require Import ZArith QArith Qminmax Lqa List String Bool Lia.
From stdpp Require Import base option gmap pretty.
Import ListNotations.

Local Open Scope string_scope.
Local Open Scope Z_scope.

(** ** Exceptions and the state-and-exception monad *)

Inductive exn : Type :=
| ValueError (msg : string)
| NotImplementedError (msg : string)
| OtherError (msg : string).

Inductive Result (S A : Type) : Type :=
| Ok (a : A) (s : S)
| Raise (e : exn) (s : S).
Arguments Ok {S A} a s.
Arguments Raise {S A} e s.

Definition M (S A : Type) : Type := S -> Result S A.

#[export] Instance M_ret {S} : MRet (M S) := fun A a s => Ok a s.

#[export] Instance M_bind {S} : MBind (M S) := fun A B k c s =>
  match c s with
  | Ok a s' => k a s'
  | Raise e s' => Raise e s'
  end.

Definition raise {S A} (e : exn) : M S A := fun s => Raise e s.
Definition get {S} : M S S := fun s => Ok s s.
Definition modify {S} (f : S -> S) : M S unit := fun s => Ok tt (f s).
Definition when {S} (b : bool) (c : M S unit) : M S unit :=
  if b then c else mret tt.

(** The state a computation ends in, whether it returned or raised. *)
Definition final_state {S A} (r : Result S A) : S :=
  match r with Ok _ s => s | Raise _ s => s end.

(** ** numpy arrays *)

Inductive DType : Type := float32 | float64 | int64.

Record ndarray : Type := mk_ndarray {
  dtype : DType;
  shape : list nat;
  data : list Q          (* the samples, flattened in C order *)
}.

(** [a.size]: the product of the dimensions. *)
Definition np_size (a : ndarray) : nat := fold_right Nat.mul 1%nat (shape a).

Definition well_shaped (a : ndarray) : Prop := length (data a) = np_size a.

(** Conversion of one sample to a dtype: the float types keep the value
    (rounding is not modelled), the integer type truncates towards zero. *)
Definition cast (d : DType) (x : Q) : Q :=
  match d with
  | float32 | float64 => x
  | int64 => inject_Z (Z.quot (Qnum x) (Zpos (Qden x)))
  end.

(** [a.astype(d)], and [np.array(a, dtype=d)] on an array [a]. *)
Definition astype (a : ndarray) (d : DType) : ndarray :=
  {| dtype := d; shape := shape a; data := map (cast d) (data a) |}.

(** [np.array(a)] on an array [a]: a copy. *)
Definition np_array (a : ndarray) : ndarray := a.

Definition Qmin_list (x : Q) (l : list Q) : Q := fold_left Qmin l x.
Definition Qmax_list (x : Q) (l : list Q) : Q := fold_left Qmax l x.

(** [np.min(a)] and [np.max(a)]: numpy raises [ValueError] on an array with
    no samples. *)
Definition np_min {S} (a : ndarray) : M S Q :=
  match data a with
  | [] => raise (ValueError "zero-size array to reduction operation minimum which has no identity")
  | x :: l => mret (Qmin_list x l)
  end.

Definition np_max {S} (a : ndarray) : M S Q :=
  match data a with
  | [] => raise (ValueError "zero-size array to reduction operation maximum which has no identity")
  | x :: l => mret (Qmax_list x l)
  end.

(** Python's [max] over a tuple of dimensions ([ValueError] on the empty
    tuple). *)
Definition py_max {S} (l : list nat) : M S nat :=
  match l with
  | [] => raise (ValueError "max() arg is an empty sequence")
  | x :: l' => mret (fold_left Nat.max l' x)
  end.

Definition shape_eqb (s1 s2 : list nat) : bool :=
  bool_decide (s1 = s2).

(** Python's [repr] of a tuple of integers, used in error messages. *)
Definition repr_shape (s : list nat) : string :=
  match s with
  | [] => "()"
  | [n] => "(" ++ pretty n ++ ",)"
  | n :: l => "(" ++ fold_left (fun acc k => acc ++ ", " ++ pretty k) l (pretty n) ++ ")"
  end.

(** Tuple unpacking [height, width, depth = shape]. *)
Definition unpack3 {S} (s : list nat) : M S (nat * nat * nat) :=
  match s with
  | [h; w; d] => mret (h, w, d)
  | _ :: _ :: _ :: _ :: _ => raise (ValueError "too many values to unpack (expected 3)")
  | _ => raise (ValueError "not enough values to unpack (expected 3)")
  end.

(** ** OpenGL: the commands the class issues *)

Inductive GLenum : Type :=
| GL_TEXTURE_1D | GL_TEXTURE_3D
| GL_TEXTURE_WRAP_S | GL_TEXTURE_WRAP_T | GL_TEXTURE_WRAP_R
| GL_TEXTURE_MAG_FILTER | GL_TEXTURE_MIN_FILTER
| GL_CLAMP_TO_EDGE | GL_REPEAT
| GL_NEAREST | GL_LINEAR | GL_NEAREST_MIPMAP_LINEAR
| GL_R32F | GL_RED | GL_FLOAT | GL_FALSE
| GL_ARRAY_BUFFER | GL_STATIC_DRAW | GL_TRIANGLES
| GL_TEXTURE0 | GL_TEXTURE1.

#[export] Instance GLenum_eq_dec : EqDecision GLenum.
Proof. solve_decision. Defined.

Inductive gl_call : Type :=
| GlGenTextures (n : Z)
| GlBindTexture (target : GLenum) (texture : Z)
| GlTexParameterf (target pname param : GLenum)
| GlTexParameteri (target pname param : GLenum)
| GlTexImage3D (target : GLenum) (level : Z) (internalformat : GLenum)
    (width height depth border : Z) (format type : GLenum) (pixels : list Q)
| GlActiveTexture (texture : GLenum)
| GlGenVertexArrays (n : Z)
| GlGenBuffers (n : Z)
| GlDeleteVertexArrays (name : Z)
| GlDeleteBuffers (name : Z)
| GlBindVertexArray (name : Z)
| GlBindBuffer (target : GLenum) (buffer : Z)
| GlBufferData (target : GLenum) (nbytes : Z) (payload : list Q) (usage : GLenum)
| GlVertexAttribPointer (index size : Z) (type normalized : GLenum)
    (stride : Z) (pointer : option Z)
| GlEnableVertexAttribArray (index : Z)
| GlGetUniformLocation (program : Z) (name : string)
| GlUniform1i (location value : Z)
| GlDrawArrays (mode : GLenum) (first count : Z).

(** The world outside the instance: the OpenGL commands issued so far (newest
    first), the lines printed, and the class attributes [__shader_program]
    and [__class_initialized]. *)
Record World : Type := mk_World {
  gl_calls : list gl_call;
  stdout : list string;
  cls__shader_program : Z;
  cls__class_initialized : bool
}.

Definition initial_World : World :=
  {| gl_calls := []; stdout := [];
     cls__shader_program := -1; cls__class_initialized := false |}.

Definition issue (c : gl_call) (w : World) : World :=
  {| gl_calls := c :: gl_calls w; stdout := stdout w;
     cls__shader_program := cls__shader_program w;
     cls__class_initialized := cls__class_initialized w |}.

Definition printed (line : string) (w : World) : World :=
  {| gl_calls := gl_calls w; stdout := line :: stdout w;
     cls__shader_program := cls__shader_program w;
     cls__class_initialized := cls__class_initialized w |}.

Definition print (line : string) : M World unit := modify (printed line).

(** The names and locations the OpenGL implementation hands out, as functions
    of the commands issued before. *)
Class GLDriver : Type := {
  gen_texture : list gl_call -> Z;
  gen_vertex_array : list gl_call -> Z;
  gen_buffer : list gl_call -> Z;
  uniform_location : list gl_call -> Z -> string -> Z
}.

Module gl.
Section Commands.
Context `{GLDriver}.

Definition call (c : gl_call) : M World unit := modify (issue c).

Definition glGenTextures (n : Z) : M World Z :=
fun w => Ok (gen_texture (gl_calls w)) (issue (GlGenTextures n) w).
Definition glGenVertexArrays (n : Z) : M World Z :=
fun w => Ok (gen_vertex_array (gl_calls w)) (issue (GlGenVertexArrays n) w).
Definition glGenBuffers (n : Z) : M World Z :=
fun w => Ok (gen_buffer (gl_calls w)) (issue (GlGenBuffers n) w).
Definition glGetUniformLocation (program : Z) (name : string) : M World Z :=
fun w => Ok (uniform_location (gl_calls w) program name)
            (issue (GlGetUniformLocation program name) w).

Definition glBindTexture t n := call (GlBindTexture t n).
Definition glTexParameterf t p v := call (GlTexParameterf t p v).
Definition glTexParameteri t p v := call (GlTexParameteri t p v).
Definition glTexImage3D t l i w h d b f ty px :=
call (GlTexImage3D t l i w h d b f ty px).
Definition glActiveTexture u := call (GlActiveTexture u).
Definition glDeleteVertexArrays n := call (GlDeleteVertexArrays n).
Definition glDeleteBuffers n := call (GlDeleteBuffers n).
Definition glBindVertexArray n := call (GlBindVertexArray n).
Definition glBindBuffer t n := call (GlBindBuffer t n).
Definition glBufferData t n d u := call (GlBufferData t n d u).
Definition glVertexAttribPointer i s t n st p :=
call (GlVertexAttribPointer i s t n st p).
Definition glEnableVertexAttribArray i := call (GlEnableVertexAttribArray i).
Definition glUniform1i l v := call (GlUniform1i l v).
Definition glDrawArrays m f c := call (GlDrawArrays m f c).
End Commands.
End gl.

(** ** OpenGL: what the commands do to 3D texture objects

    Following the OpenGL specification: a texture object comes into being
    with the default parameters when its name is first bound; parameter and
    image commands act on the object bound to the target on the active
    texture unit. *)

Record Image3D : Type := mk_Image3D {
  img_internalformat : GLenum;
  img_width : Z;
  img_height : Z;
  img_depth : Z;
  img_pixels : list Q
}.

Record Texture : Type := mk_Texture {
  wrap_s : GLenum;
  wrap_t : GLenum;
  wrap_r : GLenum;
  mag_filter : GLenum;
  min_filter : GLenum;
  image : option Image3D
}.

Definition default_Texture : Texture :=
  {| wrap_s := GL_REPEAT; wrap_t := GL_REPEAT; wrap_r := GL_REPEAT;
     mag_filter := GL_LINEAR; min_filter := GL_NEAREST_MIPMAP_LINEAR;
     image := None |}.

Definition set_parameter (pname param : GLenum) (t : Texture) : Texture :=
  match pname with
  | GL_TEXTURE_WRAP_S =>
      {| wrap_s := param; wrap_t := wrap_t t; wrap_r := wrap_r t;
         mag_filter := mag_filter t; min_filter := min_filter t; image := image t |}
  | GL_TEXTURE_WRAP_T =>
      {| wrap_s := wrap_s t; wrap_t := param; wrap_r := wrap_r t;
         mag_filter := mag_filter t; min_filter := min_filter t; image := image t |}
  | GL_TEXTURE_WRAP_R =>
      {| wrap_s := wrap_s t; wrap_t := wrap_t t; wrap_r := param;
         mag_filter := mag_filter t; min_filter := min_filter t; image := image t |}
  | GL_TEXTURE_MAG_FILTER =>
      {| wrap_s := wrap_s t; wrap_t := wrap_t t; wrap_r := wrap_r t;
         mag_filter := param; min_filter := min_filter t; image := image t |}
  | GL_TEXTURE_MIN_FILTER =>
      {| wrap_s := wrap_s t; wrap_t := wrap_t t; wrap_r := wrap_r t;
         mag_filter := mag_filter t; min_filter := param; image := image t |}
  | _ => t
  end.

Definition set_image (i : Image3D) (t : Texture) : Texture :=
  {| wrap_s := wrap_s t; wrap_t := wrap_t t; wrap_r := wrap_r t;
     mag_filter := mag_filter t; min_filter := min_filter t; image := Some i |}.

Record GLState : Type := mk_GLState {
  active_unit : GLenum;
  bound_3d : GLenum -> Z;           (* per texture unit *)
  textures : gmap Z Texture
}.

Definition initial_GLState : GLState :=
  {| active_unit := GL_TEXTURE0; bound_3d := fun _ => 0; textures := ∅ |}.

Definition current_3d (g : GLState) : Z := bound_3d g (active_unit g).

Definition alter_current (f : Texture -> Texture) (g : GLState) : GLState :=
  {| active_unit := active_unit g; bound_3d := bound_3d g;
     textures := alter f (current_3d g) (textures g) |}.

Definition gl_step (c : gl_call) (g : GLState) : GLState :=
  match c with
  | GlActiveTexture u =>
      {| active_unit := u; bound_3d := bound_3d g; textures := textures g |}
  | GlBindTexture GL_TEXTURE_3D n =>
      {| active_unit := active_unit g;
         bound_3d := fun u => if decide (u = active_unit g) then n else bound_3d g u;
         textures := match textures g !! n with
                     | Some _ => textures g
                     | None => <[n := default_Texture]> (textures g)
                     end |}
  | GlTexParameterf GL_TEXTURE_3D pname param
  | GlTexParameteri GL_TEXTURE_3D pname param =>
      alter_current (set_parameter pname param) g
  | GlTexImage3D GL_TEXTURE_3D 0 fmt w h d _ _ _ px =>
      alter_current (set_image (mk_Image3D fmt w h d px)) g
  | _ => g
  end.

(** The texture state reached by a command log (newest first). *)
Definition gl_state_from (g0 : GLState) (log : list gl_call) : GLState :=
  fold_right gl_step g0 log.

Definition gl_state (w : World) : GLState :=
  gl_state_from initial_GLState (gl_calls w).

Definition texture_of (w : World) (name : Z) : option Texture :=
  textures (gl_state w) !! name.

(** ** The collaborators of the class *)

(** A colormap, as far as this class uses it: its 1D texture handle. *)
Record Colormap : Type := mk_Colormap { Colormap_tex : Z }.

Definition Vec3 : Type := (Q * Q * Q)%type.

(** What the concrete subclass and the code outside this file supply, taken
    as parameters.  [base_model] is the static method a subclass overrides.
    The rest belongs to the base renderable [BaseObject] and to the colormap
    module: the class-level shader initialisation [class_initialize], the
    [shader_program] property and the [render] step of the base class, which
    act on the class and GPU state only and may raise, and the default
    colormap [viridis]. *)
Class Collaborators : Type := {
  Camera : Type;
  Projection : Type;
  base_model : exn + list Vec3;
  class_initialize : M World unit;
  shader_program : World -> Z;
  super_render : Camera -> Projection -> M World unit;
  viridis : Colormap
}.

(** [BaseCrossSection.base_model] itself, which a subclass must override. *)
Definition abstract_base_model : exn + list Vec3 :=
  inl (NotImplementedError "Override in subclass").

(** ** The instance *)

(** One row of [triangles]: position (x, y, z) and texture coordinate
    (u, v, w). *)
Record Vertex : Type := mk_Vertex {
  pos_x : Q; pos_y : Q; pos_z : Q;
  tex_u : Q; tex_v : Q; tex_w : Q
}.

Record BaseCrossSection : Type := mk_BaseCrossSection {
  _initialized : bool;          (* attribute of [BaseObject] *)
  __array : ndarray;
  offset : Vec3;
  __x_size : Q;
  __y_size : Q;
  __z_size : Q;
  vmin : Q;
  vmax : Q;
  triangles : list Vertex;
  __vao : Z;
  __vbo : Z;
  __tex : Z;
  colormap : Colormap
}.

(** Read-only properties. *)
Definition x_size (self : BaseCrossSection) : Q := __x_size self.
Definition y_size (self : BaseCrossSection) : Q := __y_size self.
Definition z_size (self : BaseCrossSection) : Q := __z_size self.
Definition array (self : BaseCrossSection) : ndarray := __array self.
Definition vao (self : BaseCrossSection) : Z := __vao self.
Definition vbo (self : BaseCrossSection) : Z := __vbo self.
Definition tex (self : BaseCrossSection) : Z := __tex self.
Definition cmap_tex (self : BaseCrossSection) : Z := Colormap_tex (colormap self).

(** Modelled from the spec: the [initialized] property of [BaseObject], which
    reads the flag that [initialize] sets. *)
Definition initialized (self : BaseCrossSection) : bool := _initialized self.

(** Attribute assignments. *)
Definition set___array (v : ndarray) (o : BaseCrossSection) : BaseCrossSection :=
  mk_BaseCrossSection (_initialized o) v (offset o) (__x_size o) (__y_size o)
    (__z_size o) (vmin o) (vmax o) (triangles o) (__vao o) (__vbo o) (__tex o)
    (colormap o).
Definition set___vao (v : Z) (o : BaseCrossSection) : BaseCrossSection :=
  mk_BaseCrossSection (_initialized o) (__array o) (offset o) (__x_size o)
    (__y_size o) (__z_size o) (vmin o) (vmax o) (triangles o) v (__vbo o)
    (__tex o) (colormap o).
Definition set___vbo (v : Z) (o : BaseCrossSection) : BaseCrossSection :=
  mk_BaseCrossSection (_initialized o) (__array o) (offset o) (__x_size o)
    (__y_size o) (__z_size o) (vmin o) (vmax o) (triangles o) (__vao o) v
    (__tex o) (colormap o).
Definition set___tex (v : Z) (o : BaseCrossSection) : BaseCrossSection :=
  mk_BaseCrossSection (_initialized o) (__array o) (offset o) (__x_size o)
    (__y_size o) (__z_size o) (vmin o) (vmax o) (triangles o) (__vao o)
    (__vbo o) v (colormap o).
Definition set__initialized (v : bool) (o : BaseCrossSection) : BaseCrossSection :=
  mk_BaseCrossSection v (__array o) (offset o) (__x_size o) (__y_size o)
    (__z_size o) (vmin o) (vmax o) (triangles o) (__vao o) (__vbo o) (__tex o)
    (colormap o).
Definition set_vmin (v : Q) (o : BaseCrossSection) : BaseCrossSection :=
  mk_BaseCrossSection (_initialized o) (__array o) (offset o) (__x_size o)
    (__y_size o) (__z_size o) v (vmax o) (triangles o) (__vao o) (__vbo o)
    (__tex o) (colormap o).
Definition set_vmax (v : Q) (o : BaseCrossSection) : BaseCrossSection :=
  mk_BaseCrossSection (_initialized o) (__array o) (offset o) (__x_size o)
    (__y_size o) (__z_size o) (vmin o) v (triangles o) (__vao o) (__vbo o)
    (__tex o) (colormap o).

(** The state a method runs in: the instance and the world. *)
Definition St : Type := (BaseCrossSection * World)%type.

Definition self : M St BaseCrossSection := fun s => Ok (fst s) s.
Definition assign (f : BaseCrossSection -> BaseCrossSection) : M St unit :=
  modify (fun s => (f (fst s), snd s)).
Definition in_world {A} (c : M World A) : M St A :=
  fun s => match c (snd s) with
           | Ok a w' => Ok a (fst s, w')
           | Raise e w' => Raise e (fst s, w')
           end.
Definition of_sum {S A} (r : exn + A) : M S A :=
  match r with inl e => raise e | inr a => mret a end.

Definition Q_of_nat (n : nat) : Q := inject_Z (Z.of_nat n).

(** The advisory the constructor prints for a large field. *)
Definition advisory : string :=
  "Warning: OpenGL only guarantees up to 256x256x256 3D textures".

(** ** The constructor *)

Section Class.
Context `{GLDriver} `{Collaborators}.

(** [positions = uvw - np.array([0.5, 0.5, 0.5]) + self.offset] *)
Definition positions_of (uvw : list Vec3) (off : Vec3) : list Vec3 :=
  map (fun c : Vec3 =>
         let '(u, v, w) := c in
         let '(ox, oy, oz) := off in
         (u - (1#2) + ox, v - (1#2) + oy, w - (1#2) + oz)%Q) uvw.

(** The six columns of [self.triangles], row by row. *)
Definition triangles_of (uvw : list Vec3) (off : Vec3) (xs ys zs : Q)
  : list Vertex :=
  map (fun pc : Vec3 * Vec3 =>
         let '((px, py, pz), (u, v, w)) := pc in
         {| pos_x := (px * xs)%Q; pos_y := (py * ys)%Q; pos_z := (pz * zs)%Q;
            tex_u := u; tex_v := v; tex_w := w |})
      (combine (positions_of uvw off) uvw).

Definition __init__ (array_ : ndarray) (offset_ : Vec3)
    (x_size_ y_size_ z_size_ vmin_ vmax_ : option Q)
    (cmap_ : option Colormap) : M World BaseCrossSection :=
  (* super().__init__(), modelled from the spec: the flag of [BaseObject]
     starts unset *)
  let initialized0 := false in
  let array1 := astype array_ float32 in
  when (negb (length (shape array1) =? 3)%nat)
    (raise (ValueError ("Expected a 3D array for 'array' (was "
                        ++ pretty (length (shape array1)) ++ "-dimensional)")));;
  biggest ← py_max (shape array1);
  when (256 <? biggest)%nat
    (print advisory);;
  let xs := match x_size_ with None => Q_of_nat (nth 0 (shape array1) 0%nat) | Some x => x end in
  let ys := match y_size_ with None => Q_of_nat (nth 1 (shape array1) 0%nat) | Some y => y end in
  let zs := match z_size_ with None => Q_of_nat (nth 2 (shape array1) 0%nat) | Some z => z end in
  lo ← match vmin_ with None => np_min array1 | Some v => mret v end;
  hi ← match vmax_ with None => np_max array1 | Some v => mret v end;
  uvw ← of_sum base_model;
  mret {| _initialized := initialized0;
          __array := array1;
          offset := offset_;
          __x_size := xs; __y_size := ys; __z_size := zs;
          vmin := lo; vmax := hi;
          triangles := triangles_of uvw offset_ xs ys zs;
          __vao := -1; __vbo := -1; __tex := -1;
          colormap := match cmap_ with None => viridis | Some c => c end |}.

(** ** The methods *)

Definition row (v : Vertex) : list Q :=
  [pos_x v; pos_y v; pos_z v; tex_u v; tex_v v; tex_w v].

(** [a.flatten()] of the [(n, 6)] array [triangles]. *)
Definition flatten (t : list Vertex) : list Q := concat (map row t).

Definition itemsize : Z := 4.   (* bytes of a float32 *)

Definition setBuffers : M St unit :=
  o ← self;
  in_world (gl.glBindBuffer GL_ARRAY_BUFFER (vbo o));;
  in_world (gl.glBufferData GL_ARRAY_BUFFER
              (Z.of_nat (length (triangles o)) * 6 * itemsize)
              (flatten (triangles o)) GL_STATIC_DRAW).

(** A handle is an integer, so of [self.tex is None or self.tex == -1] only
    the comparison with the sentinel can hold. *)
Definition createTexture : M St unit :=
  o ← self;
  when (tex o =? -1)
    (t ← in_world (gl.glGenTextures 1); assign (set___tex t));;
  o ← self;
  in_world (gl.glBindTexture GL_TEXTURE_3D (tex o));;
  in_world (gl.glTexParameterf GL_TEXTURE_3D GL_TEXTURE_WRAP_S GL_CLAMP_TO_EDGE);;
  in_world (gl.glTexParameterf GL_TEXTURE_3D GL_TEXTURE_WRAP_T GL_CLAMP_TO_EDGE);;
  in_world (gl.glTexParameteri GL_TEXTURE_3D GL_TEXTURE_MAG_FILTER GL_NEAREST);;
  in_world (gl.glTexParameteri GL_TEXTURE_3D GL_TEXTURE_MIN_FILTER GL_NEAREST).

(** [(np.array(array) - vmin) / (vmax - vmin)], sample by sample.  Where
    [vmax = vmin] numpy divides by zero and yields nan or inf, which [Q] does
    not have (its division gives 0 there): the properties below state the
    uploaded values for [vmin] and [vmax] distinct only. *)
Definition normalize (lo hi : Q) (x : Q) : Q := ((x - lo) / (hi - lo))%Q.

Definition setTexture (array_ : ndarray) : M St unit :=
  o ← self;
  when (tex o =? -1) createTexture;;
  o ← self;
  let data_ := data (astype
                 (mk_ndarray (dtype array_) (shape array_)
                    (map (normalize (vmin o) (vmax o)) (data (np_array array_))))
                 float32) in
  '(height, width, depth) ← unpack3 (shape array_);
  in_world (gl.glBindTexture GL_TEXTURE_3D (tex o));;
  in_world (gl.glTexImage3D GL_TEXTURE_3D 0 GL_R32F
              (Z.of_nat width) (Z.of_nat height) (Z.of_nat depth) 0
              GL_RED GL_FLOAT data_).

(** The [array] setter. *)
Definition array_setter (new_array_ : ndarray) : M St unit :=
  o ← self;
  let new_array := astype (np_array new_array_) (dtype (__array o)) in
  if negb (shape_eqb (shape new_array) (shape (__array o)))
  then raise (ValueError ("Array shape does not match internal array (expected "
                          ++ repr_shape (shape (__array o)) ++ ", got "
                          ++ repr_shape (shape new_array) ++ ")"))
  else
    assign (set___array new_array);;
    o ← self;
    when (initialized o) (setTexture (array o)).

Definition createBuffers : M St unit :=
  o ← self;
  when (negb (vao o =? -1))
    (in_world (gl.glDeleteVertexArrays (vao o));; assign (set___vao (-1)));;
  o ← self;
  when (negb (vbo o =? -1))
    (in_world (gl.glDeleteBuffers (vbo o));; assign (set___vbo (-1)));;
  a ← in_world (gl.glGenVertexArrays 1);
  assign (set___vao a);;
  b ← in_world (gl.glGenBuffers 1);
  assign (set___vbo b);;
  let blank_mesh := repeat 0%Q 6 in
  o ← self;
  in_world (gl.glBindBuffer GL_ARRAY_BUFFER (vbo o));;
  in_world (gl.glBufferData GL_ARRAY_BUFFER 0 blank_mesh GL_STATIC_DRAW);;
  in_world (gl.glBindVertexArray (vao o));;
  let stride := (3 + 3) * itemsize in
  in_world (gl.glVertexAttribPointer 0 3 GL_FLOAT GL_FALSE stride None);;
  in_world (gl.glEnableVertexAttribArray 0);;
  in_world (gl.glVertexAttribPointer 1 3 GL_FLOAT GL_FALSE stride
              (Some (3 * itemsize)));;
  in_world (gl.glEnableVertexAttribArray 1).

Definition initialize : M St unit :=
  o ← self;
  if initialized o then mret tt
  else
    in_world class_initialize;;
    createBuffers;;
    setBuffers;;
    (o ← self; setTexture (array o));;
    cmap_loc ← in_world (w ← get; gl.glGetUniformLocation (shader_program w) "cmap");
    tex_loc ← in_world (w ← get; gl.glGetUniformLocation (shader_program w) "field");
    in_world (gl.glUniform1i cmap_loc 0);;
    in_world (gl.glUniform1i tex_loc 1);;
    assign (set__initialized true).

Definition render (camera : Camera) (projection : Projection) : M St unit :=
  in_world (super_render camera projection);;
  o ← self;
  in_world (gl.glActiveTexture GL_TEXTURE0);;
  in_world (gl.glBindTexture GL_TEXTURE_1D (cmap_tex o));;
  in_world (gl.glActiveTexture GL_TEXTURE1);;
  in_world (gl.glBindTexture GL_TEXTURE_3D (tex o));;
  in_world (gl.glBindVertexArray (vao o));;
  in_world (gl.glBindBuffer GL_ARRAY_BUFFER (vbo o));;
  in_world (gl.glDrawArrays GL_TRIANGLES 0 (Z.of_nat (length (triangles o)))).

End Class.

(** ** Operations on an instance *)

Section Operations.
Context `{GLDriver} `{Collaborators}.

(** What can be done to an instance from outside: the methods and setter of
    the class, and assignment to the public window attributes. *)
Inductive operation : Type :=
| AssignArray (new_array_ : ndarray)
| Initialize
| Render (camera : Camera) (projection : Projection)
| SetTexture (array_ : ndarray)
| CreateTexture
| CreateBuffers
| SetBuffers
| AssignVmin (v : Q)
| AssignVmax (v : Q).

Definition perform (op : operation) : M St unit :=
  match op with
  | AssignArray a => array_setter a
  | Initialize => initialize
  | Render c p => render c p
  | SetTexture a => setTexture a
  | CreateTexture => createTexture
  | CreateBuffers => createBuffers
  | SetBuffers => setBuffers
  | AssignVmin v => assign (set_vmin v)
  | AssignVmax v => assign (set_vmax v)
  end.

(** The state after an operation, whether it returned or raised. *)
Definition after (op : operation) (s : St) : St := final_state (perform op s).

Definition run (ops : list operation) (s : St) : St :=
  fold_left (fun s op => after op s) ops s.

End Operations.

(** * The vocabulary of the properties *)

(** ** Command logs *)

(** The world after issuing the commands [cs] (newest first). *)
Definition extend (cs : list gl_call) (w : World) : World := fold_right issue w cs.

(** Binding the name [n] to the 3D target. *)
Definition bind3d (n : Z) : gl_call := GlBindTexture GL_TEXTURE_3D n.

(** Bind, then the four parameter commands of [createTexture]. *)
Definition createTexture_commands (n : Z) : list gl_call :=
  [ GlTexParameteri GL_TEXTURE_3D GL_TEXTURE_MIN_FILTER GL_NEAREST;
    GlTexParameteri GL_TEXTURE_3D GL_TEXTURE_MAG_FILTER GL_NEAREST;
    GlTexParameterf GL_TEXTURE_3D GL_TEXTURE_WRAP_T GL_CLAMP_TO_EDGE;
    GlTexParameterf GL_TEXTURE_3D GL_TEXTURE_WRAP_S GL_CLAMP_TO_EDGE;
    bind3d n ].

(** Bind, then the image command of [setTexture]. *)
Definition setTexture_commands (n : Z) (w h d : Z) (px : list Q) : list gl_call :=
  [ GlTexImage3D GL_TEXTURE_3D 0 GL_R32F w h d 0 GL_RED GL_FLOAT px;
    bind3d n ].

(** The texture [t] after the four parameter commands of [createTexture]. *)
Definition created (t : Texture) : Texture :=
  set_parameter GL_TEXTURE_MIN_FILTER GL_NEAREST
    (set_parameter GL_TEXTURE_MAG_FILTER GL_NEAREST
       (set_parameter GL_TEXTURE_WRAP_T GL_CLAMP_TO_EDGE
          (set_parameter GL_TEXTURE_WRAP_S GL_CLAMP_TO_EDGE t))).

(** ** The expected outcome of the texture methods *)

Section Expected.
Context `{GLDriver}.

(** The instance and the world after [createTexture], when it is run by
    [setTexture] or on its own. *)
Definition after_createTexture (s : St) : St :=
  let '(o, w) := s in
  if tex o =? -1
  then let t := gen_texture (gl_calls w) in
       (set___tex t o, extend (createTexture_commands t) (issue (GlGenTextures 1) w))
  else (o, extend (createTexture_commands (tex o)) w).

(** The pixels [setTexture] uploads for the samples [l]. *)
Definition uploaded (o : BaseCrossSection) (l : list Q) : list Q :=
  map (normalize (vmin o) (vmax o)) l.

Definition after_setTexture (array_ : ndarray) (h w d : nat) (s : St) : St :=
  let '(o1, w1) := if tex (fst s) =? -1 then after_createTexture s else s in
  (o1, extend (setTexture_commands (tex o1) (Z.of_nat w) (Z.of_nat h) (Z.of_nat d)
                 (uploaded (fst s) (data array_))) w1).

End Expected.

(** The configuration [createTexture] sets: clamp-to-edge on the S and T
    axes, nearest-neighbour filtering both ways. *)
Definition configured (t : Texture) : Prop :=
  wrap_s t = GL_CLAMP_TO_EDGE /\ wrap_t t = GL_CLAMP_TO_EDGE /\
  mag_filter t = GL_NEAREST /\ min_filter t = GL_NEAREST.

(** The instance has no texture yet, or has one that is configured. *)
Definition texture_ready (o : BaseCrossSection) (w : World) : Prop :=
  tex o = -1 \/ exists t, texture_of w (tex o) = Some t /\ configured t.

(** The array the setter stores for the argument [new_array_]. *)
Definition replacement (o : BaseCrossSection) (new_array_ : ndarray) : ndarray :=
  astype (np_array new_array_) (dtype (__array o)).

(** ** Defaults, extrema and ranges *)

(** The value of an optional argument, given its default. *)
Definition default_to (d : Q) (v : option Q) : Q :=
  match v with None => d | Some x => x end.

(** The reductions that supply a default are defined on the field. *)
Definition defaults_defined (array_ : ndarray) (vmin_ vmax_ : option Q) : Prop :=
  vmin_ = None \/ vmax_ = None -> data array_ <> [].

(** The least and the greatest sample of a list. *)
Definition is_minimum (m : Q) (l : list Q) : Prop :=
  In m l /\ forall y, In y l -> (m <= y)%Q.

Definition is_maximum (m : Q) (l : list Q) : Prop :=
  In m l /\ forall y, In y l -> (y <= m)%Q.

(** The samples lie in [[lo, hi]] and reach both ends. *)
Definition spans (lo hi : Q) (l : list Q) : Prop :=
  (forall x, In x l -> (lo <= x /\ x <= hi)%Q) /\
  (exists x, In x l /\ (x == lo)%Q) /\
  (exists x, In x l /\ (x == hi)%Q).

(** ** Frames and invariants *)

(** [keeps f c]: the attribute (or group of attributes) [f] of the instance
    is the same after [c] as before, whether [c] returns or raises. *)
Definition keeps {X A} (f : BaseCrossSection -> X) (c : M St A) : Prop :=
  forall s, f (fst (final_state (c s))) = f (fst s).

(** The stored field is a float32 array of shape [sh]. *)
Definition field_invariant (sh : list nat) (o : BaseCrossSection) : Prop :=
  dtype (array o) = float32 /\ shape (array o) = sh.

(** ** Results and the statements of the spec *)

(** The value a computation returned (or the exception it raised). *)
Definition value_of {S : Type} {A : Type} (r : Result S A)
  : match r return Type with Ok _ _ => A | Raise _ _ => exn end :=
  match r with Ok a _ => a | Raise e _ => e end.

(** The statements of the spec that the code does not meet, in the spec's
    words. *)

(** Position of a vertex along one axis as the spec has it: centre, scale,
    then add the offset. *)
Definition position_as_specified (c size off : Q) : Q := ((c - (1#2)) * size + off)%Q.

(** Texture state as the spec has it: clamp-to-edge on all three axes,
    nearest filtering both ways, and (width, height, depth) the three
    dimensions of the field in order. *)
Definition texture_as_specified (sh : list nat) (t : Texture) : Prop :=
  wrap_s t = GL_CLAMP_TO_EDGE /\ wrap_t t = GL_CLAMP_TO_EDGE /\
  wrap_r t = GL_CLAMP_TO_EDGE /\
  min_filter t = GL_NEAREST /\ mag_filter t = GL_NEAREST /\
  exists img, image t = Some img /\
    [img_width img; img_height img; img_depth img] = map Z.of_nat sh.

(** ** Buffers, drawing and the driver *)

(** OpenGL names are unsigned: the driver never hands out the sentinel -1. *)
Definition proper_driver `{GLDriver} : Prop :=
  forall log,
    gen_texture log <> -1 /\ gen_vertex_array log <> -1 /\ gen_buffer log <> -1.

(** The deletions [createBuffers] starts with (newest first): one for each
    handle that is not the sentinel. *)
Definition deletions (o : BaseCrossSection) : list gl_call :=
  ((if vbo o =? -1 then [] else [GlDeleteBuffers (vbo o)])
   ++ (if vao o =? -1 then [] else [GlDeleteVertexArrays (vao o)]))%list.

(** The generation and set-up commands of [createBuffers] for the new
    vertex array [a] and buffer [b] (newest first). *)
Definition createBuffers_commands (a b : Z) : list gl_call :=
  [ GlEnableVertexAttribArray 1;
    GlVertexAttribPointer 1 3 GL_FLOAT GL_FALSE 24 (Some 12);
    GlEnableVertexAttribArray 0;
    GlVertexAttribPointer 0 3 GL_FLOAT GL_FALSE 24 None;
    GlBindVertexArray a;
    GlBufferData GL_ARRAY_BUFFER 0 (repeat 0%Q 6) GL_STATIC_DRAW;
    GlBindBuffer GL_ARRAY_BUFFER b;
    GlGenBuffers 1;
    GlGenVertexArrays 1 ].

(** The commands of [render] after the step of the base class (newest
    first). *)
Definition render_commands (o : BaseCrossSection) : list gl_call :=
  [ GlDrawArrays GL_TRIANGLES 0 (Z.of_nat (length (triangles o)));
    GlBindBuffer GL_ARRAY_BUFFER (vbo o);
    GlBindVertexArray (vao o);
    GlBindTexture GL_TEXTURE_3D (tex o);
    GlActiveTexture GL_TEXTURE1;
    GlBindTexture GL_TEXTURE_1D (cmap_tex o);
    GlActiveTexture GL_TEXTURE0 ].

(** The commands [initialize] ends with (newest first): the locations of
    the samplers "cmap" and "field" are looked up in the program read
    before each look-up ([pc], [pf]), and set to the texture units 0 and
    1. *)
Definition sampler_commands (pc pf lc lf : Z) : list gl_call :=
  [ GlUniform1i lf 1; GlUniform1i lc 0;
    GlGetUniformLocation pf "field"; GlGetUniformLocation pc "cmap" ].

(** The texture coordinate of a vertex. *)
Definition texcoord (v : Vertex) : Vec3 := (tex_u v, tex_v v, tex_w v).

(** What no method of the class assigns: the mesh, the extents, the offset
    and the colormap. *)
Definition geometry (o : BaseCrossSection)
  : list Vertex * Q * Q * Q * Vec3 * Colormap :=
  (triangles o, x_size o, y_size o, z_size o, offset o, colormap o).

(** ** A concrete setting to run the class in

    A driver that numbers the names it hands out, and a subclass whose base
    model is the unit square at mid-depth (two triangles). *)

Module Demo.

#[export] Instance driver : GLDriver := {|
  gen_texture := fun log => 1 + Z.of_nat (length log);
  gen_vertex_array := fun log => 1 + Z.of_nat (length log);
  gen_buffer := fun log => 1 + Z.of_nat (length log);
  uniform_location := fun _ _ name => if String.eqb name "cmap" then 0 else 1
|}.

Definition square : list Vec3 :=
  [ (0, 0, 1#2); (1, 0, 1#2); (1, 1, 1#2);
    (0, 0, 1#2); (1, 1, 1#2); (0, 1, 1#2) ]%Q.

#[export] Instance plane : Collaborators := {|
  Camera := unit;
  Projection := unit;
  base_model := inr square;
  class_initialize := fun w =>
    if cls__class_initialized w then Ok tt w
    else Ok tt {| gl_calls := gl_calls w; stdout := stdout w;
                  cls__shader_program := 7; cls__class_initialized := true |};
  shader_program := cls__shader_program;
  super_render := fun _ _ => mret tt;
  viridis := {| Colormap_tex := 0 |}
|}.

(** A field of the given shape with the given samples. *)
Definition field (s : list nat) (samples : list Q) : ndarray :=
  {| dtype := float64; shape := s; data := samples |}.

Definition zeros (s : list nat) : ndarray :=
  field s (repeat 0%Q (fold_right Nat.mul 1%nat s)).

Definition origin : Vec3 := (0, 0, 0)%Q.

(** A 2x2x2 field of zeros with the window [0, 1], newly constructed. *)
Definition cube : BaseCrossSection :=
  Eval vm_compute in
    value_of (__init__ (zeros [2; 2; 2]%nat) origin None None None
                (Some 0%Q) (Some 1%Q) None initial_World).

(** The same after [initialize]. *)
Definition live : St :=
  Eval vm_compute in final_state (initialize (cube, initial_World)).

(** A 1x1x2 field with samples 10 and 20 and the default window. *)
Definition ramp : BaseCrossSection :=
  Eval vm_compute in
    value_of (__init__ (field [1; 1; 2]%nat [10; 20]%Q) origin None None None
                None None None initial_World).

(** The class itself, with the base model left abstract. *)
Definition abstract : Collaborators := {|
  Camera := unit;
  Projection := unit;
  base_model := abstract_base_model;
  class_initialize := mret tt;
  shader_program := cls__shader_program;
  super_render := fun _ _ => mret tt;
  viridis := {| Colormap_tex := 0 |}
|}.

(** The plane on a base class whose shader build and render step fail. *)
Definition failing : Collaborators := {|
  Camera := unit;
  Projection := unit;
  base_model := inr square;
  class_initialize := raise (OtherError "shader compilation failed");
  shader_program := cls__shader_program;
  super_render := fun _ _ => raise (OtherError "no current program");
  viridis := {| Colormap_tex := 0 |}
|}.

End Demo.

(** * Properties *)

(** ** Running the monad *)

Lemma bind_Ok {S A B} (c : M S A) (k : A -> M S B) s a s1 :
  c s = Ok a s1 -> (c ≫= k) s = k a s1.
Proof. intros E. unfold mbind, M_bind. now rewrite E. Qed.

Lemma bind_Ok_inv {S A B} (c : M S A) (k : A -> M S B) s b s2 :
  (c ≫= k) s = Ok b s2 -> exists a s1, c s = Ok a s1 /\ k a s1 = Ok b s2.
Proof.
  unfold mbind, M_bind. destruct (c s) as [a s1|e s1]; intros E.
  - exists a, s1. split; [reflexivity | exact E].
  - discriminate E.
Qed.

Lemma map_cast_float32 (l : list Q) : map (cast float32) l = l.
Proof. induction l as [|x l IH]; simpl; [reflexivity | now rewrite IH]. Qed.

(** ** The texture state after a bind, a parameter or an image command *)

Section TextureState.

Lemma current_after_bind g n : current_3d (gl_step (bind3d n) g) = n.
Proof.
  unfold current_3d. simpl. destruct (decide (active_unit g = active_unit g));
    [reflexivity | congruence].
Qed.

Lemma lookup_after_bind g n :
  textures (gl_step (bind3d n) g) !! n
  = Some (default default_Texture (textures g !! n)).
Proof.
  simpl. destruct (textures g !! n) as [t|] eqn:E; simpl.
  - exact E.
  - apply lookup_insert_eq.
Qed.

Lemma lookup_after_alter f g t :
  textures g !! current_3d g = Some t ->
  textures (alter_current f g) !! current_3d g = Some (f t).
Proof. intros E. simpl. rewrite lookup_alter_eq, E. reflexivity. Qed.

Lemma parameter_step g c p v n t :
  c = GlTexParameterf GL_TEXTURE_3D p v \/ c = GlTexParameteri GL_TEXTURE_3D p v ->
  current_3d g = n -> textures g !! n = Some t ->
  current_3d (gl_step c g) = n /\
  textures (gl_step c g) !! n = Some (set_parameter p v t).
Proof.
  intros Hc Hn Ht.
  assert (gl_step c g = alter_current (set_parameter p v) g) as ->
    by (destruct Hc as [-> | ->]; reflexivity).
  split; [exact Hn|].
  subst n. now apply lookup_after_alter.
Qed.

Lemma image_step g w h d b f ty px n t :
  current_3d g = n -> textures g !! n = Some t ->
  textures (gl_step (GlTexImage3D GL_TEXTURE_3D 0 GL_R32F w h d b f ty px) g) !! n
  = Some (set_image (mk_Image3D GL_R32F w h d px) t).
Proof. intros Hn Ht. subst n. now apply lookup_after_alter. Qed.

Lemma state_after_createTexture g n :
  let g' := fold_right gl_step g (createTexture_commands n) in
  current_3d g' = n /\
  textures g' !! n = Some (created (default default_Texture (textures g !! n))).
Proof.
  unfold createTexture_commands, created. cbn [fold_right].
  pose proof (current_after_bind g n) as Hc.
  pose proof (lookup_after_bind g n) as Hl.
  destruct (parameter_step _ _ GL_TEXTURE_WRAP_S GL_CLAMP_TO_EDGE _ _
              (or_introl eq_refl) Hc Hl) as [Hc1 Hl1].
  destruct (parameter_step _ _ GL_TEXTURE_WRAP_T GL_CLAMP_TO_EDGE _ _
              (or_introl eq_refl) Hc1 Hl1) as [Hc2 Hl2].
  destruct (parameter_step _ _ GL_TEXTURE_MAG_FILTER GL_NEAREST _ _
              (or_intror eq_refl) Hc2 Hl2) as [Hc3 Hl3].
  exact (parameter_step _ _ GL_TEXTURE_MIN_FILTER GL_NEAREST _ _
           (or_intror eq_refl) Hc3 Hl3).
Qed.

Lemma state_after_setTexture g n w h d px :
  textures (fold_right gl_step g (setTexture_commands n w h d px)) !! n
  = Some (set_image (mk_Image3D GL_R32F w h d px)
            (default default_Texture (textures g !! n))).
Proof.
  unfold setTexture_commands. cbn [fold_right].
  apply image_step; [apply current_after_bind | apply lookup_after_bind].
Qed.

End TextureState.

(** ** What [setTexture] does, step by step *)

Lemma gl_calls_extend cs w : gl_calls (extend cs w) = (cs ++ gl_calls w)%list.
Proof. induction cs as [|c cs IH]; simpl; [reflexivity | now rewrite IH]. Qed.

Lemma stdout_extend cs w : stdout (extend cs w) = stdout w.
Proof. induction cs as [|c cs IH]; simpl; [reflexivity | exact IH]. Qed.

Lemma gl_state_extend cs w :
  gl_state (extend cs w) = fold_right gl_step (gl_state w) cs.
Proof.
  unfold gl_state, gl_state_from. rewrite gl_calls_extend.
  apply fold_right_app.
Qed.

Section SetTexture.
Context `{GLDriver} `{Collaborators}.

Lemma createTexture_run s : createTexture s = Ok tt (after_createTexture s).
Proof.
  destruct s as [o w]. unfold createTexture, after_createTexture.
  unfold mbind, M_bind, self, when. simpl.
  destruct (tex o =? -1) eqn:E; reflexivity.
Qed.

Lemma setTexture_run array_ h w d s :
  shape array_ = [h; w; d] ->
  setTexture array_ s = Ok tt (after_setTexture array_ h w d s).
Proof.
  intros Hs. destruct s as [o wo]. unfold setTexture, after_setTexture.
  cbn [fst]. unfold mbind at 1, M_bind at 1, self at 1. cbn [fst].
  destruct (tex o =? -1) eqn:E.
  - unfold when. rewrite (bind_Ok _ _ _ _ _ (createTexture_run (o, wo))).
    unfold after_createTexture. rewrite E.
    unfold mbind, M_bind, self. cbn. rewrite Hs. cbn.
    rewrite map_cast_float32. reflexivity.
  - unfold when, mbind, M_bind, self. cbn. rewrite Hs. cbn.
    rewrite map_cast_float32. reflexivity.
Qed.

End SetTexture.

(** ** The texture object after an upload *)

Lemma configured_created t : configured (created t).
Proof. repeat split. Qed.

Lemma configured_set_image i t : configured t -> configured (set_image i t).
Proof. intros C. exact C. Qed.

Lemma set___tex_same o : set___tex (tex o) o = o.
Proof. destruct o; reflexivity. Qed.

Section Upload.
Context `{GLDriver} `{Collaborators}.

Lemma setTexture_effect array_ h w d o wo :
  shape array_ = [h; w; d] ->
  exists o' w' t older,
    setTexture array_ (o, wo) = Ok tt (o', w') /\
    o' = set___tex (tex o') o /\
    (tex o <> -1 -> o' = o) /\
    gl_calls w' =
      (setTexture_commands (tex o') (Z.of_nat w) (Z.of_nat h) (Z.of_nat d)
         (uploaded o (data array_)) ++ older ++ gl_calls wo)%list /\
    stdout w' = stdout wo /\
    texture_of w' (tex o') = Some t /\
    image t = Some (mk_Image3D GL_R32F (Z.of_nat w) (Z.of_nat h) (Z.of_nat d)
                      (uploaded o (data array_))) /\
    (texture_ready o wo -> configured t).
Proof.
  intros Hs. rewrite (setTexture_run _ _ _ _ _ Hs).
  unfold after_setTexture, after_createTexture. cbn [fst].
  destruct (tex o =? -1) eqn:E.
  - set (n := gen_texture (gl_calls wo)).
    set (w1 := extend (createTexture_commands n) (issue (GlGenTextures 1) wo)).
    eexists _, _, _, (createTexture_commands n ++ [GlGenTextures 1])%list.
    split; [reflexivity|].
    change (tex (set___tex n o)) with n.
    split; [reflexivity|].
    split; [intros Hne; apply Z.eqb_eq in E; contradiction|].
    split.
    { rewrite gl_calls_extend. unfold w1. rewrite gl_calls_extend.
      rewrite <- !app_assoc. reflexivity. }
    split; [unfold w1; now rewrite !stdout_extend|].
    unfold texture_of. rewrite gl_state_extend, state_after_setTexture.
    unfold w1. rewrite gl_state_extend.
    destruct (state_after_createTexture (gl_state (issue (GlGenTextures 1) wo)) n)
      as [_ ->]. cbn [default].
    split; [reflexivity|].
    split; [reflexivity|].
    intros _. apply configured_set_image, configured_created.
  - apply Z.eqb_neq in E.
    eexists _, _, _, []. split; [reflexivity|].
    split; [symmetry; apply set___tex_same|].
    split; [reflexivity|].
    split; [now rewrite gl_calls_extend|].
    split; [now rewrite stdout_extend|].
    unfold texture_of. rewrite gl_state_extend, state_after_setTexture.
    split; [reflexivity|].
    split; [reflexivity|].
    intros [Hu | (t & Ht & Hc)]; [contradiction|].
    unfold texture_of in Ht. rewrite Ht. exact Hc.
Qed.

End Upload.

(** ** The [array] setter and [initialize], step by step *)

Section Methods.
Context `{GLDriver} `{Collaborators}.

Lemma array_setter_mismatch new_array_ o w :
  shape new_array_ <> shape (array o) ->
  exists msg, array_setter new_array_ (o, w) = Raise (ValueError msg) (o, w).
Proof.
  intros Hne. unfold array_setter, mbind, M_bind, self. cbn.
  unfold shape_eqb. rewrite bool_decide_eq_false_2 by exact Hne. cbn.
  eexists. reflexivity.
Qed.

Lemma array_setter_match new_array_ o w :
  shape new_array_ = shape (array o) ->
  array_setter new_array_ (o, w) =
    if initialized o
    then setTexture (replacement o new_array_)
           (set___array (replacement o new_array_) o, w)
    else Ok tt (set___array (replacement o new_array_) o, w).
Proof.
  intros He. unfold array_setter, mbind, M_bind, self. cbn.
  unfold shape_eqb. rewrite bool_decide_eq_true_2 by exact He. cbn.
  change (_initialized o) with (initialized o).
  destruct (initialized o); reflexivity.
Qed.

Lemma createBuffers_run o w :
  exists a b w',
    createBuffers (o, w) = Ok tt (set___vbo b (set___vao a o), w') /\
    stdout w' = stdout w.
Proof.
  unfold createBuffers, mbind, M_bind, self, when. cbn.
  destruct (vao o =? -1); cbn; unfold vbo; cbn;
    destruct (__vbo o =? -1); cbn;
    eexists _, _, _; (split; [reflexivity|]); reflexivity.
Qed.

Lemma setBuffers_run o w :
  exists w', setBuffers (o, w) = Ok tt (o, w') /\ stdout w' = stdout w.
Proof. eexists. split; reflexivity. Qed.

(** [initialize] on an instance that is not initialized and has no texture
    yet, when the class-level initialisation succeeds. *)
Lemma initialize_fresh o w w1 h wd d :
  initialized o = false -> tex o = -1 ->
  class_initialize w = Ok tt w1 ->
  shape (array o) = [h; wd; d] ->
  exists a b n w' t,
    initialize (o, w) =
      Ok tt (set__initialized true (set___tex n (set___vbo b (set___vao a o))), w') /\
    stdout w' = stdout w1 /\
    texture_of w' n = Some t /\
    configured t /\
    image t = Some (mk_Image3D GL_R32F (Z.of_nat wd) (Z.of_nat h) (Z.of_nat d)
                      (uploaded o (data (array o)))).
Proof.
  intros Hi Ht Hc Hs.
  destruct (createBuffers_run o w1) as (a & b & w2 & Hb & Ho2).
  destruct (setBuffers_run (set___vbo b (set___vao a o)) w2) as (w3 & Hsb & Ho3).
  set (o3 := set___vbo b (set___vao a o)) in *.
  destruct (setTexture_effect (array o3) h wd d o3 w3 Hs)
    as (o4 & w4 & t & older & Hst & Ho4 & _ & _ & Hout & Htex & Himg & Hcfg).
  exists a, b, (tex o4).
  unfold initialize. unfold mbind at 1, M_bind at 1, self at 1. cbn [fst].
  rewrite Hi.
  assert (in_world class_initialize (o, w) = Ok tt (o, w1)) as E1
    by (unfold in_world; cbn; now rewrite Hc).
  rewrite (bind_Ok _ _ _ _ _ E1).
  rewrite (bind_Ok _ _ _ _ _ Hb).
  rewrite (bind_Ok _ _ _ _ _ Hsb).
  assert ((o ← self; setTexture (array o)) (o3, w3) = Ok tt (o4, w4)) as E4
    by exact Hst.
  rewrite (bind_Ok _ _ _ _ _ E4).
  eexists _, t. split.
  - unfold mbind, M_bind, in_world, get, assign, modify. cbn.
    rewrite Ho4. reflexivity.
  - split; [cbn; congruence|].
    split; [exact Htex|].
    split; [apply Hcfg; left; exact Ht | exact Himg].
Qed.

End Methods.

(** ** The constructor, step by step *)

Section Constructor.
Context `{GLDriver} `{Collaborators}.

Lemma __init___run array_ offset_ x_size_ y_size_ z_size_ vmin_ vmax_ cmap_ w
      h wd d uvw :
  shape array_ = [h; wd; d] ->
  base_model = inr uvw ->
  defaults_defined array_ vmin_ vmax_ ->
  exists o,
    __init__ array_ offset_ x_size_ y_size_ z_size_ vmin_ vmax_ cmap_ w
    = Ok o (if (256 <? Nat.max (Nat.max h wd) d)%nat then printed advisory w else w) /\
    initialized o = false /\
    array o = astype array_ float32 /\
    offset o = offset_ /\
    x_size o = default_to (Q_of_nat h) x_size_ /\
    y_size o = default_to (Q_of_nat wd) y_size_ /\
    z_size o = default_to (Q_of_nat d) z_size_ /\
    vmin o = default_to (Qmin_list (hd 0%Q (data array_)) (tl (data array_))) vmin_ /\
    vmax o = default_to (Qmax_list (hd 0%Q (data array_)) (tl (data array_))) vmax_ /\
    triangles o = triangles_of uvw offset_ (x_size o) (y_size o) (z_size o) /\
    vao o = -1 /\ vbo o = -1 /\ tex o = -1.
Proof.
  intros Hs Hb Hd. unfold __init__.
  unfold mbind, M_bind, when, py_max, print, modify, raise, np_min, np_max.
  cbn -[Nat.ltb Nat.max]. rewrite Hs, Hb. cbn -[Nat.ltb Nat.max].
  rewrite map_cast_float32.
  unfold defaults_defined in Hd.
  destruct ((256 <? Nat.max (Nat.max h wd) d)%nat);
    destruct vmin_ as [lo|], vmax_ as [hi|];
    destruct (data array_) as [|x l] eqn:E; cbn;
    try solve [exfalso; apply Hd; [auto | reflexivity]].
  all: eexists; (split; [reflexivity|]); cbn; rewrite ?Hs;
    repeat split; reflexivity.
Qed.

End Constructor.

(** ** The mesh *)

Section Mesh.
Context `{GLDriver} `{Collaborators}.

(** What the constructor computes for a vertex: the offset is added before
    the scaling, so it is scaled with the extent. *)
Lemma triangles_of_rows uvw off xs ys zs :
  triangles_of uvw off xs ys zs =
  map (fun c : Vec3 =>
         let '(u, v, w) := c in
         let '(ox, oy, oz) := off in
         {| pos_x := ((u - (1#2) + ox) * xs)%Q;
            pos_y := ((v - (1#2) + oy) * ys)%Q;
            pos_z := ((w - (1#2) + oz) * zs)%Q;
            tex_u := u; tex_v := v; tex_w := w |}) uvw.
Proof.
  unfold triangles_of, positions_of. destruct off as [[ox oy] oz].
  induction uvw as [|[[u v] w0] l IH]; cbn; [reflexivity|].
  f_equal. exact IH.
Qed.

(** Along the x axis: the position of every vertex of the mesh from its
    texture coordinate. *)
Lemma vertex_pos_x uvw ox oy oz xs ys zs v :
  In v (triangles_of uvw (ox, oy, oz) xs ys zs) ->
  pos_x v = ((tex_u v - (1#2) + ox) * xs)%Q /\
  pos_y v = ((tex_v v - (1#2) + oy) * ys)%Q /\
  pos_z v = ((tex_w v - (1#2) + oz) * zs)%Q.
Proof.
  rewrite triangles_of_rows. intros Hin. apply in_map_iff in Hin.
  destruct Hin as ([[u v0] w0] & <- & _). cbn. repeat split.
Qed.

(** With a zero offset (or a unit extent) the order of adding and scaling
    does not matter. *)
Lemma zero_offset_as_specified c size :
  ((c - (1#2) + 0) * size == position_as_specified c size 0)%Q.
Proof. unfold position_as_specified. ring. Qed.

Lemma unit_extent_as_specified c off :
  ((c - (1#2) + off) * 1 == position_as_specified c 1 off)%Q.
Proof. unfold position_as_specified. ring. Qed.

(** The scenario of a 4x4x4 field at the origin: every position lies in
    [[-2, 2]], and a texture coordinate 0 or 1 is placed at -2 or 2. *)
Lemma centred_cube_of_4 uvw v :
  (forall c, In c uvw ->
     let '(cu, cv, cw) := c in
     (0 <= cu <= 1 /\ 0 <= cv <= 1 /\ 0 <= cw <= 1)%Q) ->
  In v (triangles_of uvw (0, 0, 0)%Q 4 4 4) ->
  (-2 <= pos_x v <= 2 /\ -2 <= pos_y v <= 2 /\ -2 <= pos_z v <= 2)%Q /\
  ((tex_u v == 0)%Q -> (pos_x v == -2)%Q) /\
  ((tex_u v == 1)%Q -> (pos_x v == 2)%Q).
Proof.
  intros Hunit. rewrite triangles_of_rows. intros Hin.
  apply in_map_iff in Hin. destruct Hin as ([[cu cv] cw] & <- & Hc).
  specialize (Hunit _ Hc). cbn in Hunit |- *.
  destruct Hunit as ((? & ?) & (? & ?) & (? & ?)).
  repeat split; try lra; intros E; rewrite E; reflexivity.
Qed.

End Mesh.

(** ** Minimum, maximum and the linear remap *)

Lemma Qmin_cases x y : Qmin x y = x \/ Qmin x y = y.
Proof.
  unfold Qmin, GenericMinMax.gmin. destruct (x ?= y)%Q; auto.
Qed.

Lemma Qmax_cases x y : Qmax x y = x \/ Qmax x y = y.
Proof.
  unfold Qmax, GenericMinMax.gmax. destruct (x ?= y)%Q; auto.
Qed.

Lemma Qmin_list_minimum l : forall x, is_minimum (Qmin_list x l) (x :: l).
Proof.
  unfold Qmin_list.
  induction l as [|a l IH]; intros x; cbn [fold_left].
  - split; [now left|]. intros y [<-|[]]. apply Qle_refl.
  - destruct (IH (Qmin x a)) as [Hin Hle]. split.
    + destruct Hin as [E|Hin]; [|now right; right].
      rewrite <- E. destruct (Qmin_cases x a) as [-> | ->];
        [now left | now right; left].
    + intros y [<-|[<-|Hy]].
      * eapply Qle_trans; [apply Hle; now left | apply Q.le_min_l].
      * eapply Qle_trans; [apply Hle; now left | apply Q.le_min_r].
      * apply Hle. now right.
Qed.

Lemma Qmax_list_maximum l : forall x, is_maximum (Qmax_list x l) (x :: l).
Proof.
  unfold Qmax_list.
  induction l as [|a l IH]; intros x; cbn [fold_left].
  - split; [now left|]. intros y [<-|[]]. apply Qle_refl.
  - destruct (IH (Qmax x a)) as [Hin Hle]. split.
    + destruct Hin as [E|Hin]; [|now right; right].
      rewrite <- E. destruct (Qmax_cases x a) as [-> | ->];
        [now left | now right; left].
    + intros y [<-|[<-|Hy]].
      * eapply Qle_trans; [apply Q.le_max_l | apply Hle; now left].
      * eapply Qle_trans; [apply Q.le_max_r | apply Hle; now left].
      * apply Hle. now right.
Qed.

Section Remap.
Variables lo hi : Q.
Hypothesis window : (lo < hi)%Q.

Let width_pos : (0 < hi - lo)%Q.
Proof. unfold Qminus. rewrite <- Qlt_minus_iff. exact window. Qed.

Lemma normalize_inside x : (lo <= x)%Q -> (x <= hi)%Q ->
  (0 <= normalize lo hi x /\ normalize lo hi x <= 1)%Q.
Proof.
  intros Hl Hh. unfold normalize. split.
  - apply Qle_shift_div_l; [exact width_pos|].
    rewrite Qmult_0_l. unfold Qminus. rewrite <- Qle_minus_iff. exact Hl.
  - apply Qle_shift_div_r; [exact width_pos|].
    rewrite Qmult_1_l. unfold Qminus. apply Qplus_le_l. exact Hh.
Qed.

Lemma normalize_above x : (hi < x)%Q -> (1 < normalize lo hi x)%Q.
Proof.
  intros Hx. unfold normalize.
  apply Qlt_shift_div_l; [exact width_pos|].
  rewrite Qmult_1_l. unfold Qminus. apply Qplus_lt_l. exact Hx.
Qed.

Lemma normalize_below x : (x < lo)%Q -> (normalize lo hi x < 0)%Q.
Proof.
  intros Hx. unfold normalize.
  apply Qlt_shift_div_r; [exact width_pos|].
  rewrite Qmult_0_l. unfold Qminus.
  apply (Qplus_lt_l _ _ lo). ring_simplify. exact Hx.
Qed.

Lemma normalize_lo x : (x == lo)%Q -> (normalize lo hi x == 0)%Q.
Proof.
  intros E. unfold normalize. rewrite E.
  assert (lo - lo == 0)%Q as -> by ring. unfold Qdiv. apply Qmult_0_l.
Qed.

Lemma normalize_hi x : (x == hi)%Q -> (normalize lo hi x == 1)%Q.
Proof.
  intros E. unfold normalize. rewrite E.
  unfold Qdiv. apply Qmult_inv_r.
  intros Z0. pose proof width_pos as P. rewrite Z0 in P.
  exact (Qlt_irrefl _ P).
Qed.

Lemma spans_normalized l : spans lo hi l -> spans 0 1 (map (normalize lo hi) l).
Proof.
  intros (Hin & (a & Ha & Ea) & (b & Hb & Eb)). split; [|split].
  - intros y Hy. apply in_map_iff in Hy. destruct Hy as (x & <- & Hx).
    destruct (Hin x Hx). now apply normalize_inside.
  - exists (normalize lo hi a). split; [now apply in_map | now apply normalize_lo].
  - exists (normalize lo hi b). split; [now apply in_map | now apply normalize_hi].
Qed.

End Remap.

Lemma spans_window lo hi lo' hi' l :
  (lo' == lo)%Q -> (hi' == hi)%Q -> spans lo hi l -> spans lo' hi' l.
Proof.
  intros El Eh (Hin & (a & Ha & Ea) & (b & Hb & Eb)). split; [|split].
  - intros x Hx. destruct (Hin x Hx). rewrite El, Eh. now split.
  - exists a. split; [exact Ha | now rewrite El].
  - exists b. split; [exact Hb | now rewrite Eh].
Qed.

(** ** What a method leaves alone *)

Section Frame.
Context {X : Type} (f : BaseCrossSection -> X).

Lemma keeps_mret {A} (a : A) : keeps f (mret a).
Proof. intros s. reflexivity. Qed.

Lemma keeps_raise {A} e : keeps f (raise e : M St A).
Proof. intros s. reflexivity. Qed.

Lemma keeps_self : keeps f self.
Proof. intros s. reflexivity. Qed.

Lemma keeps_in_world {A} (c : M World A) : keeps f (in_world c).
Proof. intros s. unfold in_world. destruct (c (snd s)); reflexivity. Qed.

Lemma keeps_assign g : (forall o, f (g o) = f o) -> keeps f (assign g).
Proof. intros Hg s. cbn. apply Hg. Qed.

Lemma keeps_bind {A B} (c : M St A) (k : A -> M St B) :
  keeps f c -> (forall a, keeps f (k a)) -> keeps f (c ≫= k).
Proof.
  intros Hc Hk s. specialize (Hc s). unfold mbind, M_bind.
  destruct (c s) as [a s1|e s1]; cbn in Hc |- *.
  - rewrite <- Hc. apply Hk.
  - exact Hc.
Qed.

Lemma keeps_when b (c : M St unit) : keeps f c -> keeps f (when b c).
Proof. intros Hc. destruct b; [exact Hc | apply keeps_mret]. Qed.

Lemma keeps_unpack3 l : keeps f (unpack3 l).
Proof. intros s. destruct l as [|? [|? [|? [|? ?]]]]; reflexivity. Qed.

End Frame.

Create HintDb frame.
#[local] Hint Resolve keeps_mret keeps_raise keeps_self keeps_in_world
  keeps_unpack3 : frame.

(** Walk through a method body, one statement at a time. *)
Ltac frame :=
  repeat first
    [ apply keeps_bind; [|intros ?]
    | apply keeps_when
    | apply keeps_assign; solve [intros ?; reflexivity | auto]
    | match goal with
      | |- keeps _ (let '(_, _) := ?p in _) => destruct p
      | |- keeps _ (if ?b then _ else _) => destruct b
      end
    | solve [auto with frame] ].

(** The methods other than the setter, for an attribute [f] that the handle
    assignments do not touch. *)
Section MethodFrames.
Context `{GLDriver} `{Collaborators} {X : Type} (f : BaseCrossSection -> X).
Hypothesis f_vao : forall v o, f (set___vao v o) = f o.
Hypothesis f_vbo : forall v o, f (set___vbo v o) = f o.
Hypothesis f_tex : forall v o, f (set___tex v o) = f o.

Lemma createTexture_keeps : keeps f createTexture.
Proof. unfold createTexture. frame. Qed.

Lemma setTexture_keeps a : keeps f (setTexture a).
Proof. unfold setTexture. pose proof createTexture_keeps. frame. Qed.

Lemma createBuffers_keeps : keeps f createBuffers.
Proof. unfold createBuffers. frame. Qed.

Lemma setBuffers_keeps : keeps f setBuffers.
Proof. unfold setBuffers. frame. Qed.

Lemma render_keeps c p : keeps f (render c p).
Proof. unfold render. frame. Qed.

Hypothesis f_flag : forall v o, f (set__initialized v o) = f o.

Lemma initialize_keeps : keeps f initialize.
Proof.
  unfold initialize.
  pose proof createBuffers_keeps. pose proof setBuffers_keeps.
  pose proof setTexture_keeps.
  frame.
Qed.

End MethodFrames.

Section Invariant.
Context `{GLDriver} `{Collaborators}.

Lemma setTexture_keeps_array a : keeps __array (setTexture a).
Proof. apply setTexture_keeps; reflexivity. Qed.

Lemma array_setter_invariant sh a s :
  field_invariant sh (fst s) ->
  field_invariant sh (fst (final_state (array_setter a s))).
Proof.
  destruct s as [o w]. cbn [fst]. intros [Hd Hsh].
  destruct (decide (shape a = shape (array o))) as [E|N].
  - rewrite (array_setter_match _ _ _ E).
    assert (field_invariant sh (set___array (replacement o a) o)) as Hinv.
    { unfold field_invariant, array, replacement, astype, np_array in *.
      cbn. split; [exact Hd | congruence]. }
    destruct (initialized o); [|exact Hinv].
    unfold field_invariant, array.
    rewrite (setTexture_keeps_array _ (set___array (replacement o a) o, w)).
    exact Hinv.
  - destruct (array_setter_mismatch a o w N) as [msg ->]. cbn. now split.
Qed.

Lemma after_invariant sh op s :
  field_invariant sh (fst s) -> field_invariant sh (fst (after op s)).
Proof.
  intros Hinv. unfold after.
  destruct op; cbn [perform];
    try (apply array_setter_invariant; exact Hinv);
    unfold field_invariant, array in *.
  - now rewrite (initialize_keeps __array) by reflexivity.
  - now rewrite (render_keeps __array).
  - now rewrite setTexture_keeps_array.
  - now rewrite (createTexture_keeps __array) by reflexivity.
  - now rewrite (createBuffers_keeps __array) by reflexivity.
  - now rewrite (setBuffers_keeps __array).
  - exact Hinv.
  - exact Hinv.
Qed.

Lemma run_invariant sh ops : forall s,
  field_invariant sh (fst s) -> field_invariant sh (fst (run ops s)).
Proof.
  induction ops as [|op ops IH]; intros s Hinv; cbn; [exact Hinv|].
  apply IH, after_invariant, Hinv.
Qed.

Lemma __init___returns array_ offset_ x_size_ y_size_ z_size_ vmin_ vmax_ cmap_ w o w' :
  __init__ array_ offset_ x_size_ y_size_ z_size_ vmin_ vmax_ cmap_ w = Ok o w' ->
  array o = astype array_ float32 /\ length (shape array_) = 3%nat.
Proof.
  unfold __init__.
  destruct (length (shape (astype array_ float32)) =? 3)%nat eqn:E3;
    [|discriminate].
  intros E. apply Nat.eqb_eq in E3.
  repeat (apply bind_Ok_inv in E; destruct E as (? & ? & _ & E)).
  injection E as <- _.
  split; [reflexivity | exact E3].
Qed.

(** What the setter stores when it returns. *)
Lemma array_setter_stores a o w s' :
  array_setter a (o, w) = Ok tt s' -> array (fst s') = replacement o a.
Proof.
  intros E.
  destruct (decide (shape a = shape (array o))) as [Es|N].
  - rewrite (array_setter_match _ _ _ Es) in E.
    destruct (initialized o).
    + pose proof (setTexture_keeps_array (replacement o a)
                    (set___array (replacement o a) o, w)) as K.
      rewrite E in K. exact K.
    + now injection E as <-.
  - destruct (array_setter_mismatch a o w N) as [msg Hr].
    rewrite Hr in E. discriminate E.
Qed.

(** The flag: [initialize] sets it, and no operation unsets it. *)
Lemma initialize_when_initialized s :
  initialized (fst s) = true -> initialize s = Ok tt s.
Proof.
  intros Hi. unfold initialize, mbind, M_bind, self. now rewrite Hi.
Qed.

Lemma initialize_sets_flag s s' :
  initialize s = Ok tt s' -> initialized (fst s') = true.
Proof.
  intros E. destruct (initialized (fst s)) eqn:Hi.
  - rewrite (initialize_when_initialized _ Hi) in E. now injection E as <-.
  - unfold initialize in E. unfold mbind at 1, M_bind at 1, self at 1 in E.
    rewrite Hi in E.
    repeat (apply bind_Ok_inv in E; destruct E as (? & ? & _ & E)).
    unfold assign, modify in E. now injection E as <-.
Qed.

Lemma array_setter_keeps_flag a : keeps _initialized (array_setter a).
Proof.
  unfold array_setter.
  assert (forall b, keeps _initialized (setTexture b))
    by (intros b; apply setTexture_keeps; reflexivity).
  frame.
Qed.

Lemma after_stays_initialized op s :
  initialized (fst s) = true -> initialized (fst (after op s)) = true.
Proof.
  intros Hi. unfold after, initialized in *.
  destruct op; cbn [perform].
  - now rewrite array_setter_keeps_flag.
  - now rewrite (initialize_when_initialized s Hi).
  - now rewrite (render_keeps _initialized).
  - now rewrite (setTexture_keeps _initialized) by reflexivity.
  - now rewrite (createTexture_keeps _initialized) by reflexivity.
  - now rewrite (createBuffers_keeps _initialized) by reflexivity.
  - now rewrite (setBuffers_keeps _initialized).
  - exact Hi.
  - exact Hi.
Qed.

Lemma run_stays_initialized ops : forall s,
  initialized (fst s) = true -> initialized (fst (run ops s)) = true.
Proof.
  induction ops as [|op ops IH]; intros s Hi; cbn; [exact Hi|].
  apply IH, after_stays_initialized, Hi.
Qed.

End Invariant.

(** * The claims *)

Section Claims.
Context `{GLDriver} `{Collaborators}.

(** Claim C3.  An input whose dimensionality is not 3 makes the constructor
    raise the shape error ([ValueError] in the code) at once: the world is
    left exactly as it was, so no OpenGL command has been issued, nothing
    has been printed, and no instance (hence no handle) comes into being. *)
Theorem construction_rejects_non_3d
    array_ offset_ x_size_ y_size_ z_size_ vmin_ vmax_ cmap_ w :
  length (shape array_) <> 3%nat ->
  exists msg,
    __init__ array_ offset_ x_size_ y_size_ z_size_ vmin_ vmax_ cmap_ w
    = Raise (ValueError msg) w.
Proof.
  intros Hn. unfold __init__.
  assert ((length (shape (astype array_ float32)) =? 3)%nat = false) as E
    by (apply Nat.eqb_neq; exact Hn).
  rewrite E. cbn. eexists. reflexivity.
Qed.

(** Claim C4.  On an instance holding a 3D field, assigning an array whose
    shape differs raises the mismatch error ([ValueError] in the code) and
    leaves the instance, its field included, and the world exactly as they
    were; the assignment returns exactly when the shapes are equal. *)
Theorem array_setter_checks_shape new_array_ o w :
  length (shape (array o)) = 3%nat ->
  (shape new_array_ <> shape (array o) ->
     exists msg, array_setter new_array_ (o, w) = Raise (ValueError msg) (o, w)) /\
  ((exists s', array_setter new_array_ (o, w) = Ok tt s')
     <-> shape new_array_ = shape (array o)).
Proof.
  intros H3. split; [apply array_setter_mismatch|].
  split.
  - intros [s' Hok].
    destruct (decide (shape new_array_ = shape (array o))) as [E|N]; [exact E|].
    destruct (array_setter_mismatch new_array_ o w N) as [msg Hr].
    rewrite Hr in Hok. discriminate Hok.
  - intros E. rewrite (array_setter_match _ _ _ E).
    destruct (initialized o); [|eexists; reflexivity].
    destruct (shape (array o)) as [|h [|wd [|d [|]]]] eqn:Es; try discriminate H3.
    destruct (setTexture_effect (replacement o new_array_) h wd d
                (set___array (replacement o new_array_) o) w E)
      as (o' & w' & _ & _ & Hrun & _).
    eexists. exact Hrun.
Qed.

(** Claim C5.  A same-shape replacement returns; the mesh, the vertex array
    and vertex buffer handles, the extents, the offset and the vmin/vmax
    window are what they were.  On an initialized instance the newest
    OpenGL commands are the bind and the upload of one value for each new
    sample; when [vmin] and [vmax] differ the value uploaded for the sample
    [x] is [(x - vmin) / (vmax - vmin)] for the window held before the call,
    not one recomputed from the new samples: on a proper window a new sample
    above [vmax] is uploaded above 1.  On an instance that is not
    initialized the world is untouched. *)
Theorem replacement_frame new_array_ o w h wd d :
  shape (array o) = [h; wd; d] ->
  shape new_array_ = shape (array o) ->
  exists o' w',
    array_setter new_array_ (o, w) = Ok tt (o', w') /\
    array o' = replacement o new_array_ /\
    triangles o' = triangles o /\
    vao o' = vao o /\ vbo o' = vbo o /\
    x_size o' = x_size o /\ y_size o' = y_size o /\ z_size o' = z_size o /\
    offset o' = offset o /\
    vmin o' = vmin o /\ vmax o' = vmax o /\
    (initialized o = true ->
       exists older px,
         gl_calls w' =
           (GlTexImage3D GL_TEXTURE_3D 0 GL_R32F
              (Z.of_nat wd) (Z.of_nat h) (Z.of_nat d) 0 GL_RED GL_FLOAT px
            :: GlBindTexture GL_TEXTURE_3D (tex o')
            :: older ++ gl_calls w)%list /\
         length px = length (data new_array_) /\
         (~ (vmin o == vmax o)%Q ->
          px = map (fun x => ((x - vmin o) / (vmax o - vmin o))%Q)
                 (data (array o'))) /\
         ((vmin o < vmax o)%Q ->
          forall x, In x (data (array o')) -> (vmax o < x)%Q ->
          exists p, In p px /\ (1 < p)%Q)) /\
    (initialized o = false -> w' = w).
Proof.
  intros Hs E. rewrite (array_setter_match _ _ _ E).
  destruct (initialized o) eqn:Hi.
  - assert (shape (replacement o new_array_) = [h; wd; d]) as Hr
      by (unfold replacement, astype, np_array; cbn [shape]; congruence).
    destruct (setTexture_effect (replacement o new_array_) h wd d
                (set___array (replacement o new_array_) o) w Hr)
      as (o' & w' & t & older & Hrun & Ho' & _ & Hlog & _).
    exists o', w'. split; [exact Hrun|].
    rewrite Ho'. cbn.
    repeat (split; [reflexivity|]).
    split; [|discriminate].
    intros _. exists older. eexists. split; [exact Hlog|].
    split; [|split].
    + unfold uploaded, replacement, astype, np_array. cbn [data].
      now rewrite !length_map.
    + intros _. reflexivity.
    + intros Hwin x Hx Hbig.
      exists (normalize (vmin o) (vmax o) x).
      split; [apply in_map; exact Hx | apply (normalize_above _ _ Hwin _ Hbig)].
  - eexists _, _. split; [reflexivity|]. cbn.
    repeat (split; [reflexivity|]).
    split; [discriminate | reflexivity].
Qed.

(** Claim C6.  Once [initialize] has returned on an instance, calling it
    again, at once or after any further operations on the instance, returns
    immediately and changes nothing: the instance (handles, mesh, field,
    flag) and the world (no OpenGL command, no output) are the same after
    the call as before. *)
Theorem initialize_idempotent s s1 ops :
  initialize s = Ok tt s1 ->
  initialize s1 = Ok tt s1 /\
  let s2 := run ops s1 in initialize s2 = Ok tt s2.
Proof.
  intros E. apply initialize_sets_flag in E. split.
  - apply initialize_when_initialized, E.
  - apply initialize_when_initialized, run_stays_initialized, E.
Qed.

(** Claim C7.  On a 3D field (with at least one sample when a bound is
    left out, so that the field has a minimum and a maximum) the
    constructor returns an instance with the documented defaults: a bound
    not supplied is the minimum, respectively the maximum, of the samples,
    so the two agree on a constant field; an extent not supplied is the
    array dimension of its axis.  The stored samples are those of the
    input. *)
Theorem construction_defaults
    array_ offset_ x_size_ y_size_ z_size_ vmin_ vmax_ cmap_ w h wd d uvw :
  shape array_ = [h; wd; d] ->
  base_model = inr uvw ->
  defaults_defined array_ vmin_ vmax_ ->
  exists o w',
    __init__ array_ offset_ x_size_ y_size_ z_size_ vmin_ vmax_ cmap_ w = Ok o w' /\
    data (array o) = data array_ /\
    (vmin_ = None -> is_minimum (vmin o) (data array_)) /\
    (vmax_ = None -> is_maximum (vmax o) (data array_)) /\
    (vmin_ = None -> vmax_ = None ->
       (forall x y, In x (data array_) -> In y (data array_) -> (x == y)%Q) ->
       (vmin o == vmax o)%Q) /\
    (x_size_ = None -> x_size o = Q_of_nat h) /\
    (y_size_ = None -> y_size o = Q_of_nat wd) /\
    (z_size_ = None -> z_size o = Q_of_nat d).
Proof.
  intros Hs Hb Hd.
  destruct (__init___run array_ offset_ x_size_ y_size_ z_size_ vmin_ vmax_
              cmap_ w h wd d uvw Hs Hb Hd)
    as (o & Hrun & _ & Ha & _ & Hx & Hy & Hz & Hlo & Hhi & _).
  assert (vmin_ = None -> is_minimum (vmin o) (data array_)) as Hmin.
  { intros ->. cbn in Hlo. rewrite Hlo.
    destruct (data array_) as [|x l] eqn:E; [exfalso; apply Hd; auto|].
    apply Qmin_list_minimum. }
  assert (vmax_ = None -> is_maximum (vmax o) (data array_)) as Hmax.
  { intros ->. cbn in Hhi. rewrite Hhi.
    destruct (data array_) as [|x l] eqn:E; [exfalso; apply Hd; auto|].
    apply Qmax_list_maximum. }
  eexists o, _. split; [exact Hrun|].
  split; [rewrite Ha; apply map_cast_float32|].
  split; [exact Hmin|]. split; [exact Hmax|].
  split.
  { intros E1 E2 Hconst. apply Hconst; [apply (Hmin E1) | apply (Hmax E2)]. }
  split; [intros ->; exact Hx|].
  split; [intros ->; exact Hy | intros ->; exact Hz].
Qed.

(** Claim C9.  On a valid 3D field (three dimensions, a sample to take the
    minimum and maximum of when a bound is left out, a subclass that
    supplies its base model) whose largest dimension exceeds 256, the
    constructor returns the fully constructed instance and its only effect
    on the world is the advisory line printed; nothing is raised. *)
Theorem oversized_field_is_advisory
    array_ offset_ x_size_ y_size_ z_size_ vmin_ vmax_ cmap_ w h wd d uvw :
  shape array_ = [h; wd; d] ->
  (256 < Nat.max (Nat.max h wd) d)%nat ->
  base_model = inr uvw ->
  defaults_defined array_ vmin_ vmax_ ->
  exists o,
    __init__ array_ offset_ x_size_ y_size_ z_size_ vmin_ vmax_ cmap_ w
    = Ok o (printed advisory w) /\
    array o = astype array_ float32 /\
    triangles o = triangles_of uvw offset_ (x_size o) (y_size o) (z_size o) /\
    vao o = -1 /\ vbo o = -1 /\ tex o = -1 /\ initialized o = false.
Proof.
  intros Hs Hbig Hb Hd.
  destruct (__init___run array_ offset_ x_size_ y_size_ z_size_ vmin_ vmax_
              cmap_ w h wd d uvw Hs Hb Hd)
    as (o & Hrun & Hi & Ha & _ & _ & _ & _ & _ & _ & Ht & Hvao & Hvbo & Htex).
  apply Nat.ltb_lt in Hbig. rewrite Hbig in Hrun.
  exists o. repeat split; assumption.
Qed.

(** Claim C2, as the code has it.  Where the field texture is uploaded,
    in [initialize] on a newly constructed instance and in a same-shape
    replacement on an initialized one, the texture object of the instance
    ends up with clamp-to-edge wrapping on the S and T axes and
    nearest-neighbour filtering both ways, and its image has
    width = shape[1], height = shape[0], depth = shape[2]. *)
Theorem texture_configuration_and_size o w h wd d :
  shape (array o) = [h; wd; d] ->
  (initialized o = false -> tex o = -1 ->
   forall w1, class_initialize w = Ok tt w1 ->
   exists o' w' t img,
     initialize (o, w) = Ok tt (o', w') /\
     texture_of w' (tex o') = Some t /\ configured t /\
     image t = Some img /\
     (img_width img, img_height img, img_depth img)
     = (Z.of_nat wd, Z.of_nat h, Z.of_nat d)) /\
  (initialized o = true -> texture_ready o w ->
   forall new_array_, shape new_array_ = shape (array o) ->
   exists o' w' t img,
     array_setter new_array_ (o, w) = Ok tt (o', w') /\
     texture_of w' (tex o') = Some t /\ configured t /\
     image t = Some img /\
     (img_width img, img_height img, img_depth img)
     = (Z.of_nat wd, Z.of_nat h, Z.of_nat d)).
Proof.
  intros Hs. split.
  - intros Hi Ht w1 Hc.
    destruct (initialize_fresh o w w1 h wd d Hi Ht Hc Hs)
      as (a & b & n & w' & t & Hrun & _ & Htex & Hcfg & Himg).
    eexists _, w', t, _. split; [exact Hrun|].
    split; [exact Htex|]. split; [exact Hcfg|]. split; [exact Himg|].
    reflexivity.
  - intros Hi Hready new_array_ E.
    rewrite (array_setter_match _ _ _ E), Hi.
    assert (shape (replacement o new_array_) = [h; wd; d]) as Hr
      by (unfold replacement, astype, np_array; cbn [shape]; congruence).
    destruct (setTexture_effect (replacement o new_array_) h wd d
                (set___array (replacement o new_array_) o) w Hr)
      as (o' & w' & t & older & Hrun & _ & _ & _ & _ & Htex & Himg & Hcfg).
    exists o', w', t. eexists. split; [exact Hrun|].
    split; [exact Htex|]. split; [apply Hcfg; exact Hready|].
    split; [exact Himg | reflexivity].
Qed.

(** Claim C8.  [setTexture] uploads, as the image of the instance's
    texture, each sample [x] as [(x - vmin) / (vmax - vmin)] and clamps
    nothing: a sample above [vmax] is uploaded above 1 and one below
    [vmin] below 0.  When the samples span [[10, 20]] and the window is
    [vmin = 10], [vmax = 20], the uploaded values span [[0, 1]]. *)
Theorem texture_upload_normalizes array_ o w h wd d :
  shape array_ = [h; wd; d] ->
  (vmin o < vmax o)%Q ->
  exists o' w' t img,
    setTexture array_ (o, w) = Ok tt (o', w') /\
    texture_of w' (tex o') = Some t /\
    image t = Some img /\
    img_pixels img
    = map (fun x => ((x - vmin o) / (vmax o - vmin o))%Q) (data array_) /\
    (forall x, (vmax o < x)%Q -> (1 < (x - vmin o) / (vmax o - vmin o))%Q) /\
    (forall x, (x < vmin o)%Q -> ((x - vmin o) / (vmax o - vmin o) < 0)%Q) /\
    ((vmin o == 10)%Q -> (vmax o == 20)%Q ->
     spans 10 20 (data array_) -> spans 0 1 (img_pixels img)).
Proof.
  intros Hs Hwin.
  destruct (setTexture_effect array_ h wd d o w Hs)
    as (o' & w' & t & older & Hrun & _ & _ & _ & _ & Htex & Himg & _).
  exists o', w', t. eexists. split; [exact Hrun|].
  split; [exact Htex|]. split; [exact Himg|]. cbn [img_pixels].
  split; [reflexivity|].
  split; [intros x; apply (normalize_above _ _ Hwin)|].
  split; [intros x; apply (normalize_below _ _ Hwin)|].
  intros Elo Ehi Hspan. unfold uploaded.
  apply (spans_normalized _ _ Hwin).
  exact (spans_window _ _ _ _ _ Elo Ehi Hspan).
Qed.

(** Claim C10.  The field stored by the constructor is a float32 array of
    exactly 3 dimensions with the shape of the input, whatever the dtype
    of the input; after any sequence of operations on the instance
    (returning or raising, the setter being given arrays of any dtype and
    shape) the stored field is still float32, 3-dimensional and of that
    same shape; and what the setter then stores, when it returns, is its
    argument converted to float32. *)
Theorem stored_field_invariant
    array_ offset_ x_size_ y_size_ z_size_ vmin_ vmax_ cmap_ w o w' ops :
  __init__ array_ offset_ x_size_ y_size_ z_size_ vmin_ vmax_ cmap_ w = Ok o w' ->
  let s := run ops (o, w') in
  (array o = astype array_ float32 /\ length (shape (array o)) = 3%nat) /\
  (dtype (array (fst s)) = float32 /\ length (shape (array (fst s))) = 3%nat /\
   shape (array (fst s)) = shape (array o)) /\
  (forall new_array_ s',
     array_setter new_array_ s = Ok tt s' ->
     array (fst s') = astype new_array_ float32).
Proof.
  intros Hinit s.
  destruct (__init___returns _ _ _ _ _ _ _ _ _ _ _ Hinit) as [Ha H3].
  assert (field_invariant (shape array_) o) as Hinv
    by (split; rewrite Ha; reflexivity).
  pose proof (run_invariant _ ops (o, w') Hinv) as [Hd' Hs'].
  fold s in Hd', Hs'.
  split; [split; [exact Ha | rewrite Ha; exact H3]|].
  split; [rewrite Ha; cbn [astype shape]; repeat split; congruence|].
  intros new_array_ s' E. destruct s as [o1 w1].
  rewrite (array_setter_stores _ _ _ _ E).
  unfold replacement, np_array. cbn [fst] in Hd'.
  unfold array in Hd'. now rewrite Hd'.
Qed.

End Claims.

(** * Further properties of the class *)

(** ** The constructor *)

Section ConstructorFacts.
Context `{GLDriver} `{Collaborators}.

Lemma texcoord_triangles_of uvw off xs ys zs :
  map texcoord (triangles_of uvw off xs ys zs) = uvw.
Proof.
  rewrite triangles_of_rows, map_map. destruct off as [[ox oy] oz].
  induction uvw as [|[[u v] w0] l IH]; cbn; [reflexivity|].
  now rewrite IH.
Qed.

(** Everything a returned constructor tells about its arguments. *)
Lemma __init___Ok_inv array_ offset_ x_size_ y_size_ z_size_ vmin_ vmax_ cmap_ w o w' :
  __init__ array_ offset_ x_size_ y_size_ z_size_ vmin_ vmax_ cmap_ w = Ok o w' ->
  exists h wd d uvw,
    shape array_ = [h; wd; d] /\
    base_model = inr uvw /\
    defaults_defined array_ vmin_ vmax_ /\
    colormap o = match cmap_ with None => viridis | Some c => c end.
Proof.
  intros E.
  destruct (__init___returns _ _ _ _ _ _ _ _ _ _ _ E) as [_ H3].
  destruct (shape array_) as [|h [|wd [|d [|]]]] eqn:Hs; try discriminate H3.
  exists h, wd, d.
  unfold __init__ in E.
  unfold mbind, M_bind, when, py_max, print, modify, raise, np_min, np_max in E.
  cbn -[Nat.ltb Nat.max] in E. rewrite Hs in E. cbn -[Nat.ltb Nat.max] in E.
  rewrite map_cast_float32 in E. unfold defaults_defined.
  destruct ((256 <? Nat.max (Nat.max h wd) d)%nat);
    destruct vmin_ as [lo|], vmax_ as [hi|];
    destruct (data array_) as [|x l] eqn:Ed;
    destruct base_model as [e|uvw] eqn:Eb;
    cbn in E; try discriminate E.
  all: exists uvw; injection E as <- <-.
  all: repeat split; try reflexivity.
  all: try (intros _; discriminate).
  all: intros [Hn|Hn]; discriminate Hn.
Qed.

(** Property X1.  The constructor issues no OpenGL command and leaves the class
    attributes alone, whatever its arguments and whether it returns or
    raises; all it may do to the world is print the advisory. *)
Theorem construction_defers_gpu_work
    array_ offset_ x_size_ y_size_ z_size_ vmin_ vmax_ cmap_ w :
  let w' := final_state
              (__init__ array_ offset_ x_size_ y_size_ z_size_ vmin_ vmax_ cmap_ w) in
  gl_calls w' = gl_calls w /\
  cls__shader_program w' = cls__shader_program w /\
  cls__class_initialized w' = cls__class_initialized w /\
  (stdout w' = stdout w \/ stdout w' = advisory :: stdout w).
Proof.
  unfold __init__.
  destruct (length (shape (astype array_ float32)) =? 3)%nat eqn:E3;
    [|cbn; auto].
  apply Nat.eqb_eq in E3. cbn [astype shape] in E3.
  destruct (shape array_) as [|h [|wd [|d [|]]]] eqn:Hs; try discriminate E3.
  unfold mbind, M_bind, when, py_max, print, modify, raise, np_min, np_max.
  cbn -[Nat.ltb Nat.max]. rewrite Hs. cbn -[Nat.ltb Nat.max].
  destruct ((256 <? Nat.max (Nat.max h wd) d)%nat);
    destruct vmin_ as [lo|], vmax_ as [hi|];
    destruct (map (cast float32) (data array_)) as [|x l];
    destruct base_model as [e|uvw];
    cbn; auto.
Qed.

(** Property X2.  The constructor returns exactly when the field has 3 dimensions, has a
    sample whenever a bound is left out, and the subclass supplies a base
    model. *)
Theorem construction_succeeds_iff
    array_ offset_ x_size_ y_size_ z_size_ vmin_ vmax_ cmap_ w :
  (exists o w',
     __init__ array_ offset_ x_size_ y_size_ z_size_ vmin_ vmax_ cmap_ w = Ok o w')
  <-> length (shape array_) = 3%nat /\
      defaults_defined array_ vmin_ vmax_ /\
      exists uvw, base_model = inr uvw.
Proof.
  split.
  - intros (o & w' & E).
    destruct (__init___Ok_inv _ _ _ _ _ _ _ _ _ _ _ E)
      as (h & wd & d & uvw & Hs & Hb & Hd & _).
    split; [now rewrite Hs|]. split; [exact Hd|]. now exists uvw.
  - intros (H3 & Hd & uvw & Hb).
    destruct (shape array_) as [|h [|wd [|d [|]]]] eqn:Hs; try discriminate H3.
    destruct (__init___run array_ offset_ x_size_ y_size_ z_size_ vmin_ vmax_
                cmap_ w h wd d uvw Hs Hb Hd) as (o & Hrun & _).
    eexists _, _. exact Hrun.
Qed.

(** Property X3.  A class whose [base_model] raises, as that of the class
    itself does with [NotImplementedError], cannot be instantiated: on a 3D
    field with its defaults defined the constructor raises the exception
    of [base_model], and on every other input it raises [ValueError]. *)
Theorem abstract_class_never_constructs
    array_ offset_ x_size_ y_size_ z_size_ vmin_ vmax_ cmap_ w e :
  base_model = inl e ->
  (length (shape array_) = 3%nat -> defaults_defined array_ vmin_ vmax_ ->
   exists w',
     __init__ array_ offset_ x_size_ y_size_ z_size_ vmin_ vmax_ cmap_ w
     = Raise e w') /\
  (length (shape array_) <> 3%nat \/ ~ defaults_defined array_ vmin_ vmax_ ->
   exists msg w',
     __init__ array_ offset_ x_size_ y_size_ z_size_ vmin_ vmax_ cmap_ w
     = Raise (ValueError msg) w').
Proof.
  intros Hb.
  destruct (Nat.eq_dec (length (shape array_)) 3%nat) as [H3|H3].
  - destruct (shape array_) as [|h [|wd [|d [|]]]] eqn:Hs; try discriminate H3.
    unfold __init__, defaults_defined.
    unfold mbind, M_bind, when, py_max, print, modify, raise, np_min, np_max.
    cbn -[Nat.ltb Nat.max]. rewrite Hs, Hb. cbn -[Nat.ltb Nat.max].
    rewrite map_cast_float32.
    split.
    + intros _ Hd.
      destruct ((256 <? Nat.max (Nat.max h wd) d)%nat);
        destruct vmin_ as [lo|], vmax_ as [hi|];
        destruct (data array_) as [|x l]; cbn;
        try (eexists; reflexivity);
        exfalso; apply Hd; auto.
    + intros [Hn|Hn]; [now contradiction Hn|].
      destruct ((256 <? Nat.max (Nat.max h wd) d)%nat);
        destruct vmin_ as [lo|], vmax_ as [hi|];
        destruct (data array_) as [|x l]; cbn;
        try (eexists _, _; reflexivity);
        exfalso; apply Hn; intros Hor; try discriminate;
        destruct Hor as [D|D]; discriminate D.
  - split; [intros E; contradiction|]. intros _.
    unfold __init__.
    assert ((length (shape (astype array_ float32)) =? 3)%nat = false) as E
      by (apply Nat.eqb_neq; exact H3).
    rewrite E. cbn. eexists _, _. reflexivity.
Qed.

(** Property X4.  The mesh has one vertex for each row of the base model, in order, and
    carries its texture coordinate unchanged, whatever the field, the
    offset and the extents. *)
Theorem mesh_follows_base_model
    array_ offset_ x_size_ y_size_ z_size_ vmin_ vmax_ cmap_ w o w' uvw :
  __init__ array_ offset_ x_size_ y_size_ z_size_ vmin_ vmax_ cmap_ w = Ok o w' ->
  base_model = inr uvw ->
  map texcoord (triangles o) = uvw /\
  length (triangles o) = length uvw.
Proof.
  intros E Hb.
  destruct (__init___Ok_inv _ _ _ _ _ _ _ _ _ _ _ E)
    as (h & wd & d & uvw' & Hs & Hb' & Hd & _).
  destruct (__init___run array_ offset_ x_size_ y_size_ z_size_ vmin_ vmax_
              cmap_ w h wd d uvw Hs Hb Hd)
    as (o0 & Hrun & _ & _ & _ & _ & _ & _ & _ & _ & Ht & _).
  rewrite Hrun in E. injection E as <- _.
  assert (map texcoord (triangles o0) = uvw) as Hm
    by (rewrite Ht; apply texcoord_triangles_of).
  split; [exact Hm|]. rewrite <- Hm. now rewrite length_map.
Qed.

(** Property X5.  A newly constructed instance holds no GPU resource: the three handles
    are at the sentinel and the flag is unset; the offset, and each extent,
    bound and colormap that was supplied, are stored as given. *)
Theorem constructed_instance_is_fresh
    array_ offset_ x_size_ y_size_ z_size_ vmin_ vmax_ cmap_ w o w' :
  __init__ array_ offset_ x_size_ y_size_ z_size_ vmin_ vmax_ cmap_ w = Ok o w' ->
  (vao o = -1 /\ vbo o = -1 /\ tex o = -1 /\ initialized o = false) /\
  offset o = offset_ /\
  (forall v, x_size_ = Some v -> x_size o = v) /\
  (forall v, y_size_ = Some v -> y_size o = v) /\
  (forall v, z_size_ = Some v -> z_size o = v) /\
  (forall v, vmin_ = Some v -> vmin o = v) /\
  (forall v, vmax_ = Some v -> vmax o = v) /\
  colormap o = match cmap_ with None => viridis | Some c => c end.
Proof.
  intros E.
  destruct (__init___Ok_inv _ _ _ _ _ _ _ _ _ _ _ E)
    as (h & wd & d & uvw & Hs & Hb & Hd & Hc).
  destruct (__init___run array_ offset_ x_size_ y_size_ z_size_ vmin_ vmax_
              cmap_ w h wd d uvw Hs Hb Hd)
    as (o0 & Hrun & Hi & _ & Ho & Hx & Hy & Hz & Hlo & Hhi & _ & Hvao & Hvbo & Htex).
  rewrite Hrun in E. injection E as <- _.
  split; [now repeat split|]. split; [exact Ho|].
  split; [intros v ->; exact Hx|]. split; [intros v ->; exact Hy|].
  split; [intros v ->; exact Hz|]. split; [intros v ->; exact Hlo|].
  split; [intros v ->; exact Hhi | exact Hc].
Qed.

End ConstructorFacts.

(** ** The vertex buffers *)

Section BufferFacts.
Context `{GLDriver} `{Collaborators}.

Lemma length_flatten t : length (flatten t) = (6 * length t)%nat.
Proof.
  unfold flatten. induction t as [|v t IH]; [reflexivity|].
  cbn [map concat]. rewrite length_app, IH. cbn [row length]. lia.
Qed.

Lemma flatten_row t : forall i v,
  nth_error t i = Some v ->
  firstn 6 (skipn (6 * i) (flatten t)) = row v.
Proof.
  induction t as [|x t IH]; intros [|i] v Hv; try discriminate Hv.
  - injection Hv as <-. reflexivity.
  - replace (6 * S i)%nat with (6 + 6 * i)%nat by lia.
    change (skipn (6 + 6 * i) (flatten (x :: t))) with (skipn (6 * i) (flatten t)).
    apply IH. exact Hv.
Qed.

Lemma createBuffers_outcome o w :
  createBuffers (o, w) =
  Ok tt
    (set___vbo (gen_buffer (GlGenVertexArrays 1 :: deletions o ++ gl_calls w))
       (set___vao (gen_vertex_array (deletions o ++ gl_calls w)) o),
     extend
       (createBuffers_commands
          (gen_vertex_array (deletions o ++ gl_calls w))
          (gen_buffer (GlGenVertexArrays 1 :: deletions o ++ gl_calls w)))
       (extend (deletions o) w)).
Proof.
  unfold createBuffers, deletions, mbind, M_bind, self, when, vao, vbo. cbn.
  destruct (__vao o =? -1); cbn; destruct (__vbo o =? -1); reflexivity.
Qed.

(** Property X6.  [setBuffers] binds the instance's buffer and uploads the mesh row by
    row: 24 bytes for each vertex, six values each, the position in the
    first three and the texture coordinate in the last three; the instance
    is left as it was. *)
Theorem vertex_buffer_layout o w :
  setBuffers (o, w) =
    Ok tt (o, extend [GlBufferData GL_ARRAY_BUFFER
                        (24 * Z.of_nat (length (triangles o)))
                        (flatten (triangles o)) GL_STATIC_DRAW;
                      GlBindBuffer GL_ARRAY_BUFFER (vbo o)] w) /\
  24 * Z.of_nat (length (triangles o))
  = itemsize * Z.of_nat (length (flatten (triangles o))) /\
  forall i v,
    nth_error (triangles o) i = Some v ->
    firstn 6 (skipn (6 * i) (flatten (triangles o)))
    = [pos_x v; pos_y v; pos_z v; tex_u v; tex_v v; tex_w v].
Proof.
  split; [|split].
  - unfold setBuffers, mbind, M_bind, self, in_world. cbn.
    replace (Z.of_nat (length (triangles o)) * 6 * itemsize)
      with (24 * Z.of_nat (length (triangles o))) by (unfold itemsize; lia).
    reflexivity.
  - rewrite length_flatten. unfold itemsize. lia.
  - intros i v Hv. apply (flatten_row _ _ _ Hv).
Qed.


(** Property X8.  Creating the buffers again releases the first pair: with a driver that
    never hands out the sentinel, the second [createBuffers] deletes
    exactly the vertex array and the buffer the first one stored. *)
Theorem createBuffers_again_releases o w :
  proper_driver ->
  exists o1 w1 o2 a b,
    createBuffers (o, w) = Ok tt (o1, w1) /\
    createBuffers (o1, w1) =
      Ok tt (o2, extend (createBuffers_commands a b)
                   (extend [GlDeleteBuffers (vbo o1); GlDeleteVertexArrays (vao o1)] w1)) /\
    vao o2 = a /\ vbo o2 = b.
Proof.
  intros Hp.
  set (a1 := gen_vertex_array (deletions o ++ gl_calls w)).
  set (b1 := gen_buffer (GlGenVertexArrays 1 :: deletions o ++ gl_calls w)).
  set (o1 := set___vbo b1 (set___vao a1 o)).
  set (w1 := extend (createBuffers_commands a1 b1) (extend (deletions o) w)).
  assert (deletions o1 = [GlDeleteBuffers b1; GlDeleteVertexArrays a1]) as Hdel.
  { unfold deletions, o1, vao, vbo. cbn.
    destruct (Hp (deletions o ++ gl_calls w)%list) as (_ & Ha & _).
    destruct (Hp (GlGenVertexArrays 1 :: deletions o ++ gl_calls w)%list)
      as (_ & _ & Hb).
    apply Z.eqb_neq in Ha, Hb. fold a1 in Ha. fold b1 in Hb.
    now rewrite Ha, Hb. }
  exists o1, w1.
  exists (set___vbo (gen_buffer (GlGenVertexArrays 1 :: deletions o1 ++ gl_calls w1))
            (set___vao (gen_vertex_array (deletions o1 ++ gl_calls w1)) o1)).
  exists (gen_vertex_array (deletions o1 ++ gl_calls w1)).
  exists (gen_buffer (GlGenVertexArrays 1 :: deletions o1 ++ gl_calls w1)).
  split; [apply createBuffers_outcome|].
  split; [|split; reflexivity].
  rewrite createBuffers_outcome, Hdel. reflexivity.
Qed.

End BufferFacts.

(** ** The texture *)

Section TextureFacts.
Context `{GLDriver} `{Collaborators}.

Lemma length_uploaded o l : length (uploaded o l) = length l.
Proof. unfold uploaded. apply length_map. Qed.

(** Property X9.  The texture is allocated once: after a first upload, a second one keeps
    the handle and issues the bind and the image command only (with a
    driver that never hands out the sentinel). *)
Theorem setTexture_allocates_once a1 a2 o w h1 w1 d1 h2 w2 d2 :
  proper_driver ->
  shape a1 = [h1; w1; d1] ->
  shape a2 = [h2; w2; d2] ->
  exists o' w',
    setTexture a1 (o, w) = Ok tt (o', w') /\
    tex o' <> -1 /\
    setTexture a2 (o', w') =
      Ok tt (o', extend (setTexture_commands (tex o') (Z.of_nat w2) (Z.of_nat h2)
                          (Z.of_nat d2) (uploaded o' (data a2))) w').
Proof.
  intros Hp Hs1 Hs2.
  rewrite (setTexture_run _ _ _ _ _ Hs1).
  unfold after_setTexture, after_createTexture. cbn [fst].
  destruct (tex o =? -1) eqn:E.
  - eexists _, _. split; [reflexivity|].
    destruct (Hp (gl_calls w)) as (Ht & _).
    split; [exact Ht|].
    rewrite (setTexture_run _ _ _ _ _ Hs2).
    unfold after_setTexture. cbn [fst].
    change (tex (set___tex (gen_texture (gl_calls w)) o))
      with (gen_texture (gl_calls w)).
    apply Z.eqb_neq in Ht. rewrite Ht. reflexivity.
  - eexists _, _. split; [reflexivity|].
    apply Z.eqb_neq in E. split; [exact E|].
    rewrite (setTexture_run _ _ _ _ _ Hs2).
    unfold after_setTexture. cbn [fst].
    apply Z.eqb_neq in E. rewrite E. reflexivity.
Qed.

(** Property X10.  An array that is not 3-dimensional makes [setTexture] raise
    [ValueError], but only after the texture has been created: an instance
    without a texture comes out holding a newly generated, configured
    one, and nothing is uploaded. *)
Theorem setTexture_rejects_non_3d array_ o w :
  length (shape array_) <> 3%nat ->
  exists msg,
    setTexture array_ (o, w) =
      Raise (ValueError msg)
        (if tex o =? -1
         then (set___tex (gen_texture (gl_calls w)) o,
               extend (createTexture_commands (gen_texture (gl_calls w)))
                 (issue (GlGenTextures 1) w))
         else (o, w)).
Proof.
  intros Hn. unfold setTexture.
  unfold mbind at 1, M_bind at 1, self at 1. cbn [fst].
  destruct (tex o =? -1) eqn:E.
  - unfold when. rewrite (bind_Ok _ _ _ _ _ (createTexture_run (o, w))).
    unfold after_createTexture. rewrite E.
    unfold mbind, M_bind, self. cbn.
    destruct (shape array_) as [|? [|? [|? [|? ?]]]]; cbn;
      try (eexists; reflexivity).
    now contradiction Hn.
  - unfold when, mbind, M_bind, self. cbn.
    destruct (shape array_) as [|? [|? [|? [|? ?]]]]; cbn;
      try (eexists; reflexivity).
    now contradiction Hn.
Qed.

(** Property X11.  The image command is given exactly width x height x depth samples when
    the array holds as many samples as its shape says. *)
Theorem uploaded_image_is_full array_ o w h wd d :
  shape array_ = [h; wd; d] ->
  well_shaped array_ ->
  exists o' w' t img,
    setTexture array_ (o, w) = Ok tt (o', w') /\
    texture_of w' (tex o') = Some t /\
    image t = Some img /\
    Z.of_nat (length (img_pixels img))
    = img_width img * img_height img * img_depth img.
Proof.
  intros Hs Hw.
  destruct (setTexture_effect array_ h wd d o w Hs)
    as (o' & w' & t & older & Hrun & _ & _ & _ & _ & Htex & Himg & _).
  exists o', w', t. eexists. split; [exact Hrun|].
  split; [exact Htex|]. split; [exact Himg|].
  cbn [img_pixels img_width img_height img_depth].
  rewrite length_uploaded. unfold well_shaped, np_size in Hw.
  rewrite Hw, Hs. cbn [fold_right]. lia.
Qed.

(** Property X12.  A field replaced before [initialize] is the field that
    [initialize] uploads: the replacement itself issues no command, and the
    image created later holds one value for each new sample, which for
    [vmin] and [vmax] distinct is [(x - vmin) / (vmax - vmin)] for the new
    sample [x] and the window of the instance. *)
Theorem replacement_before_initialize new_array_ o w w1 h wd d :
  initialized o = false -> tex o = -1 ->
  shape (array o) = [h; wd; d] ->
  shape new_array_ = shape (array o) ->
  class_initialize w = Ok tt w1 ->
  exists o1 o2 w2 t img,
    array_setter new_array_ (o, w) = Ok tt (o1, w) /\
    initialize (o1, w) = Ok tt (o2, w2) /\
    array o2 = replacement o new_array_ /\
    texture_of w2 (tex o2) = Some t /\
    image t = Some img /\
    length (img_pixels img) = length (data new_array_) /\
    (~ (vmin o == vmax o)%Q ->
     img_pixels img
     = map (fun x => ((x - vmin o) / (vmax o - vmin o))%Q)
         (data (replacement o new_array_))).
Proof.
  intros Hi Ht Hs E Hc.
  set (o1 := set___array (replacement o new_array_) o).
  assert (shape (array o1) = [h; wd; d]) as Hs1
    by (unfold o1, replacement, astype, np_array, array; cbn; congruence).
  destruct (initialize_fresh o1 w w1 h wd d Hi Ht Hc Hs1)
    as (a & b & n & w2 & t & Hrun & _ & Htex & _ & Himg).
  exists o1. eexists _, w2, t, _.
  split; [rewrite (array_setter_match _ _ _ E), Hi; reflexivity|].
  split; [exact Hrun|]. split; [reflexivity|].
  split; [exact Htex|]. split; [exact Himg|].
  cbn [img_pixels]. split.
  - unfold uploaded, o1, array, replacement, astype, np_array. cbn [__array set___array data].
    now rewrite !length_map.
  - intros _. reflexivity.
Qed.

End TextureFacts.

(** ** [initialize] *)

Section InitializeFacts.
Context `{GLDriver} `{Collaborators}.

Lemma after_setTexture_handles array_ h w d o wo :
  proper_driver ->
  let o' := fst (after_setTexture array_ h w d (o, wo)) in
  tex o' <> -1 /\ vao o' = vao o /\ vbo o' = vbo o /\
  initialized o' = initialized o.
Proof.
  intros Hp. unfold after_setTexture, after_createTexture. cbn [fst].
  destruct (tex o =? -1) eqn:E; cbn.
  - destruct (Hp (gl_calls wo)) as (Ht & _). now repeat split.
  - apply Z.eqb_neq in E. now repeat split.
Qed.

(** With every OpenGL command succeeding, [initialize] returns once the
    class-level initialisation has returned. *)
Lemma initialize_returns o w w1 h wd d :
  initialized o = false ->
  shape (array o) = [h; wd; d] ->
  class_initialize w = Ok tt w1 ->
  exists s', initialize (o, w) = Ok tt s'.
Proof.
  intros Hi Hs Hc.
  destruct (createBuffers_run o w1) as (a & b & w2 & Hb & _).
  destruct (setBuffers_run (set___vbo b (set___vao a o)) w2) as (w3 & Hsb & _).
  set (o3 := set___vbo b (set___vao a o)) in *.
  destruct (setTexture_effect (array o3) h wd d o3 w3 Hs)
    as (o4 & w4 & _ & _ & Hst & _).
  unfold initialize. unfold mbind at 1, M_bind at 1, self at 1. cbn [fst].
  rewrite Hi.
  assert (in_world class_initialize (o, w) = Ok tt (o, w1)) as E1
    by (unfold in_world; cbn; now rewrite Hc).
  rewrite (bind_Ok _ _ _ _ _ E1).
  rewrite (bind_Ok _ _ _ _ _ Hb).
  rewrite (bind_Ok _ _ _ _ _ Hsb).
  assert ((o ← self; setTexture (array o)) (o3, w3) = Ok tt (o4, w4)) as E4
    by exact Hst.
  rewrite (bind_Ok _ _ _ _ _ E4).
  eexists. reflexivity.
Qed.

(** Property X13.  With every OpenGL command succeeding, [initialize] on an
    instance that is not initialized and holds a 3D field raises exactly
    when the class-level initialisation of the base class raises: it then
    raises the same exception having done nothing itself, the instance
    (flag, handles, field) is as it was and the world is as the
    class-level initialisation left it. *)
Theorem initialize_fails_only_with_class_initialize o w h wd d e s' :
  initialized o = false ->
  shape (array o) = [h; wd; d] ->
  initialize (o, w) = Raise e s'
  <-> exists w1, class_initialize w = Raise e w1 /\ s' = (o, w1).
Proof.
  intros Hi Hs. split.
  - intros E.
    destruct (class_initialize w) as [[] w1|e1 w1] eqn:Hc.
    + destruct (initialize_returns o w w1 h wd d Hi Hs Hc) as [s1 Hok].
      rewrite Hok in E. discriminate E.
    + assert (initialize (o, w) = Raise e1 (o, w1)) as Hr.
      { unfold initialize. unfold mbind at 1, M_bind at 1, self at 1. cbn [fst].
        rewrite Hi.
        assert (in_world class_initialize (o, w) = Raise e1 (o, w1)) as E1
          by (unfold in_world; cbn; now rewrite Hc).
        unfold mbind, M_bind. now rewrite E1. }
      rewrite Hr in E. injection E as <- <-. now exists w1.
  - intros (w1 & Hc & ->).
    unfold initialize. unfold mbind at 1, M_bind at 1, self at 1. cbn [fst].
    rewrite Hi.
    assert (in_world class_initialize (o, w) = Raise e (o, w1)) as E1
      by (unfold in_world; cbn; now rewrite Hc).
    unfold mbind, M_bind. now rewrite E1.
Qed.

(** Property X14.  A successful [initialize] leaves no handle at the sentinel (with a
    driver that never hands it out), sets the flag, and ends by assigning
    the sampler "cmap" to texture unit 0 and the sampler "field" to texture
    unit 1. *)
Theorem initialize_acquires_resources o w w1 h wd d :
  proper_driver ->
  initialized o = false ->
  shape (array o) = [h; wd; d] ->
  class_initialize w = Ok tt w1 ->
  exists o' w' w4 pc pf,
    initialize (o, w) = Ok tt (o', w') /\
    initialized o' = true /\
    vao o' <> -1 /\ vbo o' <> -1 /\ tex o' <> -1 /\
    w' = extend
           (sampler_commands pc pf
              (uniform_location (gl_calls w4) pc "cmap")
              (uniform_location (GlGetUniformLocation pc "cmap" :: gl_calls w4)
                 pf "field"))
           w4.
Proof.
  intros Hp Hi Hs Hc.
  pose proof (createBuffers_outcome o w1) as Hb.
  set (a := gen_vertex_array (deletions o ++ gl_calls w1)) in Hb.
  set (b := gen_buffer (GlGenVertexArrays 1 :: deletions o ++ gl_calls w1)) in Hb.
  set (o2 := set___vbo b (set___vao a o)) in Hb.
  set (w2 := extend (createBuffers_commands a b) (extend (deletions o) w1)) in Hb.
  destruct (setBuffers_run o2 w2) as (w3 & Hsb & _).
  assert (shape (array o2) = [h; wd; d]) as Hs2 by exact Hs.
  pose proof (setTexture_run (array o2) h wd d (o2, w3) Hs2) as Hst.
  destruct (after_setTexture_handles (array o2) h wd d o2 w3 Hp)
    as (Htex & Hvao & Hvbo & _).
  destruct (after_setTexture (array o2) h wd d (o2, w3)) as [o4 w4] eqn:E4.
  cbn [fst] in Htex, Hvao, Hvbo.
  exists (set__initialized true o4).
  eexists _, w4, _, _.
  split.
  - unfold initialize. unfold mbind at 1, M_bind at 1, self at 1. cbn [fst].
    rewrite Hi.
    assert (in_world class_initialize (o, w) = Ok tt (o, w1)) as E1
      by (unfold in_world; cbn; now rewrite Hc).
    rewrite (bind_Ok _ _ _ _ _ E1).
    rewrite (bind_Ok _ _ _ _ _ Hb).
    rewrite (bind_Ok _ _ _ _ _ Hsb).
    assert ((o ← self; setTexture (array o)) (o2, w3) = Ok tt (o4, w4)) as E5
      by exact Hst.
    rewrite (bind_Ok _ _ _ _ _ E5).
    unfold mbind, M_bind, in_world, get, assign, modify. cbn. reflexivity.
  - split; [reflexivity|].
    destruct (Hp (deletions o ++ gl_calls w1)%list) as (_ & Ha & _).
    destruct (Hp (GlGenVertexArrays 1 :: deletions o ++ gl_calls w1)%list)
      as (_ & _ & Hb').
    split; [change (vao o4 <> -1); rewrite Hvao; exact Ha|].
    split; [change (vbo o4 <> -1); rewrite Hvbo; exact Hb'|].
    split; [exact Htex | reflexivity].
Qed.

End InitializeFacts.

(** ** [render] *)

Section RenderFacts.
Context `{GLDriver} `{Collaborators}.

(** Property X15.  [render] never changes the instance, whether it returns or raises. *)
Theorem render_never_changes_instance camera projection s :
  fst (final_state (render camera projection s)) = fst s.
Proof. apply (render_keeps (fun o => o)). Qed.

(** Property X16.  When the step of the base class returns, [render] returns after its
    seven commands: it draws as many vertices as the mesh has, leaves
    texture unit 1 active with the field texture bound to it, and alters no
    texture object when the field texture exists. *)
Theorem render_draws_whole_mesh camera projection o w w1 :
  super_render camera projection w = Ok tt w1 ->
  let w' := extend (render_commands o) w1 in
  render camera projection (o, w) = Ok tt (o, w') /\
  head (gl_calls w')
  = Some (GlDrawArrays GL_TRIANGLES 0 (Z.of_nat (length (triangles o)))) /\
  active_unit (gl_state w') = GL_TEXTURE1 /\
  current_3d (gl_state w') = tex o /\
  (is_Some (texture_of w1 (tex o)) ->
   forall n, texture_of w' n = texture_of w1 n).
Proof.
  intros Hr w'. split; [|split; [|split; [|split]]].
  - unfold render.
    assert (in_world (super_render camera projection) (o, w) = Ok tt (o, w1)) as E1
      by (unfold in_world; cbn; now rewrite Hr).
    rewrite (bind_Ok _ _ _ _ _ E1). reflexivity.
  - reflexivity.
  - unfold w'. rewrite gl_state_extend. reflexivity.
  - unfold w'. rewrite gl_state_extend. unfold current_3d. reflexivity.
  - intros [t Ht] n. unfold w', texture_of in *. rewrite gl_state_extend.
    cbn. now rewrite Ht.
Qed.

End RenderFacts.

(** ** What no operation changes *)

Section GeometryFacts.
Context `{GLDriver} `{Collaborators}.

Lemma after_keeps_geometry op s : geometry (fst (after op s)) = geometry (fst s).
Proof.
  unfold after. destruct op; cbn [perform].
  - assert (forall b, keeps geometry (setTexture b))
      by (intros b; apply setTexture_keeps; reflexivity).
    assert (keeps geometry (array_setter new_array_)) as K
      by (unfold array_setter; frame).
    apply K.
  - apply (initialize_keeps geometry); reflexivity.
  - apply (render_keeps geometry).
  - apply (setTexture_keeps geometry); reflexivity.
  - apply (createTexture_keeps geometry); reflexivity.
  - apply (createBuffers_keeps geometry); reflexivity.
  - apply (setBuffers_keeps geometry).
  - reflexivity.
  - reflexivity.
Qed.

(** Property X17.  The mesh, the extents, the offset and the colormap are fixed at
    construction: no sequence of operations changes them.  In particular
    the mesh does not follow a later replacement of the field or change of
    window. *)
Theorem geometry_is_immutable ops : forall s,
  geometry (fst (run ops s)) = geometry (fst s).
Proof.
  induction ops as [|op ops IH]; intros s; [reflexivity|].
  change (run (op :: ops) s) with (run ops (after op s)).
  rewrite IH. apply after_keeps_geometry.
Qed.

End GeometryFacts.

(** ** The window *)

(** Property X18.  The remap sends [vmin] to 0 and [vmax] to 1 whenever they differ, also
    when the window is inverted ([vmax < vmin]); it is increasing on a
    proper window and decreasing on an inverted one. *)
Theorem window_endpoints_and_order o :
  ~ (vmin o == vmax o)%Q ->
  (normalize (vmin o) (vmax o) (vmin o) == 0)%Q /\
  (normalize (vmin o) (vmax o) (vmax o) == 1)%Q /\
  ((vmin o < vmax o)%Q -> forall x y, (x <= y)%Q ->
     (normalize (vmin o) (vmax o) x <= normalize (vmin o) (vmax o) y)%Q) /\
  ((vmax o < vmin o)%Q -> forall x y, (x <= y)%Q ->
     (normalize (vmin o) (vmax o) y <= normalize (vmin o) (vmax o) x)%Q).
Proof.
  intros Hne.
  assert (~ (vmax o - vmin o == 0)%Q) as Hd.
  { intros E. apply Hne. lra. }
  unfold normalize. split; [|split; [|split]].
  - field. exact Hd.
  - field. exact Hd.
  - intros Hlt x y Hxy. unfold Qdiv.
    apply Qmult_le_compat_r.
    + unfold Qminus. apply Qplus_le_l. exact Hxy.
    + apply Qlt_le_weak, Qinv_lt_0_compat.
      unfold Qminus. rewrite <- Qlt_minus_iff. exact Hlt.
  - intros Hlt x y Hxy.
    assert (forall z, ((z - vmin o) / (vmax o - vmin o)
                       == (vmin o - z) * / (vmin o - vmax o))%Q) as Hflip.
    { intros z. field. split; [|exact Hd].
      intros E. apply Hd. lra. }
    rewrite !Hflip.
    apply Qmult_le_compat_r.
    + unfold Qminus. apply Qplus_le_r. apply Qopp_le_compat. exact Hxy.
    + apply Qlt_le_weak, Qinv_lt_0_compat.
      unfold Qminus. rewrite <- Qlt_minus_iff. exact Hlt.
Qed.

(** * The class at work on concrete fields *)

Module Runs.
Import Demo.

Example cube_constructed :
  __init__ (zeros [2; 2; 2]%nat) origin None None None
    (Some 0%Q) (Some 1%Q) None initial_World = Ok cube initial_World.
Proof. vm_compute. reflexivity. Qed.

Example cube_initializes : initialize (cube, initial_World) = Ok tt live.
Proof. vm_compute. reflexivity. Qed.

Example ramp_window : vmin ramp = 10%Q /\ vmax ramp = 20%Q.
Proof. split; reflexivity. Qed.

(** A replacement on the initialized cube, whose window is [0, 1]: the
    samples 5 are uploaded as 5, not rescaled to the range of the new
    field. *)
Example replacement_uploads_under_old_window :
  exists o' w' w h d px older,
    array_setter (field [2; 2; 2]%nat (repeat 5%Q 8)) live = Ok tt (o', w') /\
    gl_calls w' = GlTexImage3D GL_TEXTURE_3D 0 GL_R32F w h d 0 GL_RED GL_FLOAT px
                  :: older /\
    length px = 8%nat /\
    Forall (fun p => (p == 5)%Q) px.
Proof.
  eexists _, _, _, _, _, _, _.
  split; [vm_compute; reflexivity|].
  split; [reflexivity|]. split; [reflexivity|].
  repeat constructor.
Qed.

(** The abstract class itself cannot be constructed: past the validation
    the base model raises. *)
Example abstract_class_raises :
  @__init__ {| Camera := unit; Projection := unit;
               base_model := abstract_base_model;
               class_initialize := mret tt;
               shader_program := cls__shader_program;
               super_render := fun _ _ => mret tt;
               viridis := {| Colormap_tex := 0 |} |}
    (zeros [2; 2; 2]%nat) origin None None None None None None initial_World
  = Raise (NotImplementedError "Override in subclass") initial_World.
Proof. vm_compute. reflexivity. Qed.

(** Claim C1, at an input where the code departs from it.  A 2x2x2 field
    with centre offset (1, 0, 0) and default extents: the first vertex of
    the square has u = 0, and the constructor places it at
    x = (0 - 1/2 + 1) * 2 = 1, where centring, scaling, then adding the
    offset gives (0 - 1/2) * 2 + 1 = 0.  The square then spans [1, 3] in
    x, so its centre is at 2 and not at the offset 1. *)
Theorem offset_is_scaled_with_extent :
  exists o w v,
    __init__ (zeros [2; 2; 2]%nat) (1, 0, 0)%Q None None None None None None
      initial_World = Ok o w /\
    nth_error (triangles o) 0 = Some v /\
    tex_u v = 0%Q /\ x_size o = 2%Q /\
    (pos_x v == 1)%Q /\
    (position_as_specified (tex_u v) (x_size o) 1 == 0)%Q /\
    ~ (pos_x v == position_as_specified (tex_u v) (x_size o) 1)%Q /\
    Forall (fun v' => (1 <= pos_x v' /\ pos_x v' <= 3)%Q) (triangles o).
Proof.
  eexists _, _, _.
  split; [vm_compute; reflexivity|].
  split; [reflexivity|].
  split; [reflexivity|].
  split; [reflexivity|].
  split; [reflexivity|].
  split; [reflexivity|].
  split; [intros E; vm_compute in E; discriminate E|].
  repeat constructor; vm_compute; discriminate.
Qed.

(** Claim C2, at an input where it fails.  A 2x3x4 field, constructed and
    initialized: the texture image is 3 wide and 2 high, not 2 wide and 3
    high, so the texture is not as the claim describes it. *)
Lemma texture_not_as_specified :
  exists o w o' w' t img,
    __init__ (zeros [2; 3; 4]%nat) origin None None None (Some 0%Q) (Some 1%Q)
      None initial_World = Ok o w /\
    initialize (o, w) = Ok tt (o', w') /\
    texture_of w' (tex o') = Some t /\
    image t = Some img /\
    (img_width img, img_height img, img_depth img) = (3, 2, 4) /\
    ~ texture_as_specified (shape (array o)) t.
Proof.
  eexists _, _, _, _, _, _.
  split; [vm_compute; reflexivity|].
  split; [vm_compute; reflexivity|].
  split; [vm_compute; reflexivity|].
  split; [reflexivity|].
  split; [reflexivity|].
  intros (_ & _ & _ & _ & _ & img & Himg & Hdim).
  cbn in Himg. injection Himg as <-. vm_compute in Hdim. discriminate Hdim.
Qed.

(** An edge of the constructor: a field without samples.  A field of shape
    (300, 0, 1) has three dimensions and no sample: with the bounds left
    out the constructor prints the advisory and then raises, as the
    minimum of the field does not exist. *)
Example oversized_empty_field_raises :
  let a := zeros [300; 0; 1]%nat in
  shape a = [300; 0; 1]%nat /\ well_shaped a /\
  (exists msg,
     __init__ a origin None None None None None None initial_World
     = Raise (ValueError msg) (printed advisory initial_World)) /\
  ~ (exists o w,
       __init__ a origin None None None None None None initial_World = Ok o w).
Proof.
  assert (exists msg,
     __init__ (zeros [300; 0; 1]%nat) origin None None None None None None
       initial_World
     = Raise (ValueError msg) (printed advisory initial_World)) as Hraise
    by (eexists; vm_compute; reflexivity).
  split; [reflexivity|]. split; [vm_compute; reflexivity|].
  split; [exact Hraise|].
  intros (o & w & Hok). destruct Hraise as [msg Hr].
  rewrite Hr in Hok. discriminate Hok.
Qed.

End Runs.

(** ** The theorems at concrete inputs *)

Module Witnesses.
Import Demo Runs.

(** A 2D input is rejected. *)
Lemma construction_rejects_non_3d_witness :
  length (shape (zeros [3; 1]%nat)) <> 3%nat /\
  exists msg,
    __init__ (zeros [3; 1]%nat) origin None None None None None None initial_World
    = Raise (ValueError msg) initial_World.
Proof.
  split; [simpl; lia|].
  apply (construction_rejects_non_3d (zeros [3; 1]%nat)). simpl; lia.
Defined.

(** The cube refuses a 2x2 array and accepts 2x2x2 ones only. *)
Lemma array_setter_checks_shape_witness :
  length (shape (array cube)) = 3%nat /\
  ((shape (zeros [2; 2]%nat) <> shape (array cube) ->
      exists msg, array_setter (zeros [2; 2]%nat) (cube, initial_World)
                  = Raise (ValueError msg) (cube, initial_World)) /\
   ((exists s', array_setter (zeros [2; 2]%nat) (cube, initial_World) = Ok tt s')
      <-> shape (zeros [2; 2]%nat) = shape (array cube))).
Proof.
  split; [reflexivity|].
  apply (array_setter_checks_shape (zeros [2; 2]%nat) cube initial_World).
  reflexivity.
Defined.

(** Replacing the field of the initialized cube by integer samples. *)
Lemma replacement_frame_witness :
  let new := {| dtype := int64; shape := [2; 2; 2]%nat; data := repeat 5%Q 8 |} in
  shape (array (fst live)) = [2; 2; 2]%nat /\
  shape new = shape (array (fst live)) /\
  exists o' w',
    array_setter new live = Ok tt (o', w') /\
    array o' = replacement (fst live) new /\
    triangles o' = triangles (fst live) /\
    vao o' = vao (fst live) /\ vbo o' = vbo (fst live) /\
    x_size o' = x_size (fst live) /\ y_size o' = y_size (fst live) /\
    z_size o' = z_size (fst live) /\
    offset o' = offset (fst live) /\
    vmin o' = vmin (fst live) /\ vmax o' = vmax (fst live) /\
    (initialized (fst live) = true ->
       exists older px,
         gl_calls w' =
           (GlTexImage3D GL_TEXTURE_3D 0 GL_R32F 2 2 2 0 GL_RED GL_FLOAT px
            :: GlBindTexture GL_TEXTURE_3D (tex o')
            :: older ++ gl_calls (snd live))%list /\
         length px = length (data new) /\
         (~ (vmin (fst live) == vmax (fst live))%Q ->
          px = map (fun x => ((x - vmin (fst live))
                              / (vmax (fst live) - vmin (fst live)))%Q)
                 (data (array o'))) /\
         ((vmin (fst live) < vmax (fst live))%Q ->
          forall x, In x (data (array o')) -> (vmax (fst live) < x)%Q ->
          exists p, In p px /\ (1 < p)%Q)) /\
    (initialized (fst live) = false -> w' = snd live).
Proof.
  intros new. split; [reflexivity|]. split; [reflexivity|].
  apply (replacement_frame new (fst live) (snd live) 2 2 2); reflexivity.
Defined.

(** Initializing the cube twice, at once and after a render and a
    replacement. *)
Lemma initialize_idempotent_witness :
  let ops := [Render tt tt; AssignArray (zeros [2; 2; 2]%nat)] in
  initialize (cube, initial_World) = Ok tt live /\
  initialize live = Ok tt live /\
  let s2 := run ops live in initialize s2 = Ok tt s2.
Proof.
  intros ops. split; [vm_compute; reflexivity|].
  apply (initialize_idempotent (cube, initial_World) live ops).
  vm_compute; reflexivity.
Defined.

(** The defaults on the field with samples 10 and 20. *)
Lemma construction_defaults_witness :
  let a := field [1; 1; 2]%nat [10; 20]%Q in
  shape a = [1; 1; 2]%nat /\
  base_model = inr square /\
  defaults_defined a None None /\
  exists o w',
    __init__ a origin None None None None None None initial_World = Ok o w' /\
    data (array o) = data a /\
    (@None Q = None -> is_minimum (vmin o) (data a)) /\
    (@None Q = None -> is_maximum (vmax o) (data a)) /\
    (@None Q = None -> @None Q = None ->
       (forall x y, In x (data a) -> In y (data a) -> (x == y)%Q) ->
       (vmin o == vmax o)%Q) /\
    (@None Q = None -> x_size o = Q_of_nat 1) /\
    (@None Q = None -> y_size o = Q_of_nat 1) /\
    (@None Q = None -> z_size o = Q_of_nat 2).
Proof.
  intros a.
  assert (defaults_defined a None None) as Hd
    by (intros _; simpl; discriminate).
  split; [reflexivity|]. split; [reflexivity|]. split; [exact Hd|].
  apply (construction_defaults a origin None None None None None None
           initial_World 1 1 2 square); [reflexivity | reflexivity | exact Hd].
Defined.

(** A 300x1x1 field is constructed, with the advisory. *)
Lemma oversized_field_is_advisory_witness :
  let a := zeros [300; 1; 1]%nat in
  shape a = [300; 1; 1]%nat /\
  (256 < Nat.max (Nat.max 300 1) 1)%nat /\
  base_model = inr square /\
  defaults_defined a None None /\
  exists o,
    __init__ a origin None None None None None None initial_World
    = Ok o (printed advisory initial_World) /\
    array o = astype a float32 /\
    triangles o = triangles_of square origin (x_size o) (y_size o) (z_size o) /\
    vao o = -1 /\ vbo o = -1 /\ tex o = -1 /\ initialized o = false.
Proof.
  intros a.
  assert (defaults_defined a None None) as Hd
    by (intros _; vm_compute; discriminate).
  assert (256 < Nat.max (Nat.max 300 1) 1)%nat as Hbig
    by (apply Nat.ltb_lt; vm_compute; reflexivity).
  split; [vm_compute; reflexivity|]. split; [exact Hbig|].
  split; [reflexivity|]. split; [exact Hd|].
  apply (oversized_field_is_advisory a origin None None None None None None
           initial_World 300 1 1 square);
    [vm_compute; reflexivity | exact Hbig | reflexivity | exact Hd].
Defined.

(** The texture of the cube after [initialize], and after a replacement on
    the initialized cube. *)
Lemma texture_configuration_and_size_witness :
  shape (array cube) = [2; 2; 2]%nat /\
  (exists o' w' t img,
     initialize (cube, initial_World) = Ok tt (o', w') /\
     texture_of w' (tex o') = Some t /\ configured t /\
     image t = Some img /\
     (img_width img, img_height img, img_depth img) = (2, 2, 2)) /\
  (exists o' w' t img,
     array_setter (zeros [2; 2; 2]%nat) live = Ok tt (o', w') /\
     texture_of w' (tex o') = Some t /\ configured t /\
     image t = Some img /\
     (img_width img, img_height img, img_depth img) = (2, 2, 2)).
Proof.
  split; [reflexivity|]. split.
  - apply (proj1 (texture_configuration_and_size cube initial_World 2 2 2 eq_refl)
             eq_refl eq_refl
             {| gl_calls := []; stdout := [];
                cls__shader_program := 7; cls__class_initialized := true |}).
    reflexivity.
  - apply (proj2 (texture_configuration_and_size (fst live) (snd live) 2 2 2 eq_refl));
      [reflexivity | | reflexivity].
    right. eexists. split; [vm_compute; reflexivity|].
    vm_compute. repeat split.
Defined.

(** Uploading the ramp: samples 10 and 20 with the window [10, 20]. *)
Lemma texture_upload_normalizes_witness :
  shape (array ramp) = [1; 1; 2]%nat /\
  (vmin ramp < vmax ramp)%Q /\
  exists o' w' t img,
    setTexture (array ramp) (ramp, initial_World) = Ok tt (o', w') /\
    texture_of w' (tex o') = Some t /\
    image t = Some img /\
    img_pixels img
    = map (fun x => ((x - vmin ramp) / (vmax ramp - vmin ramp))%Q)
        (data (array ramp)) /\
    (forall x, (vmax ramp < x)%Q ->
               (1 < (x - vmin ramp) / (vmax ramp - vmin ramp))%Q) /\
    (forall x, (x < vmin ramp)%Q ->
               ((x - vmin ramp) / (vmax ramp - vmin ramp) < 0)%Q) /\
    ((vmin ramp == 10)%Q -> (vmax ramp == 20)%Q ->
     spans 10 20 (data (array ramp)) -> spans 0 1 (img_pixels img)).
Proof.
  split; [reflexivity|]. split; [reflexivity|].
  apply (texture_upload_normalizes (array ramp) ramp initial_World 1 1 2);
    reflexivity.
Defined.

(** The cube through a replacement by integer samples, [initialize], and
    a refused replacement. *)
Lemma stored_field_invariant_witness :
  let ops := [AssignArray {| dtype := int64; shape := [2; 2; 2]%nat;
                             data := repeat 5%Q 8 |};
              Initialize;
              AssignArray (zeros [2; 2]%nat)] in
  __init__ (zeros [2; 2; 2]%nat) origin None None None (Some 0%Q) (Some 1%Q) None
    initial_World = Ok cube initial_World /\
  let s := run ops (cube, initial_World) in
  (array cube = astype (zeros [2; 2; 2]%nat) float32 /\
   length (shape (array cube)) = 3%nat) /\
  (dtype (array (fst s)) = float32 /\ length (shape (array (fst s))) = 3%nat /\
   shape (array (fst s)) = shape (array cube)) /\
  (forall new_array_ s',
     array_setter new_array_ s = Ok tt s' ->
     array (fst s') = astype new_array_ float32).
Proof.
  intros ops. split; [vm_compute; reflexivity|].
  apply (stored_field_invariant (zeros [2; 2; 2]%nat) origin None None None
           (Some 0%Q) (Some 1%Q) None initial_World cube initial_World ops).
  vm_compute; reflexivity.
Defined.

End Witnesses.

(** ** The further properties at concrete inputs *)

Module MoreWitnesses.
Import Demo Runs.

Lemma demo_driver_is_proper : proper_driver.
Proof. intros log. cbn. lia. Defined.

(** The abstract class on a valid field and on a 2D one. *)
Lemma abstract_class_never_constructs_witness :
  @base_model abstract = inl (NotImplementedError "Override in subclass") /\
  (exists w',
     @__init__ abstract (zeros [2; 2; 2]%nat) origin None None None None None None
       initial_World = Raise (NotImplementedError "Override in subclass") w') /\
  (exists msg w',
     @__init__ abstract (zeros [2; 2]%nat) origin None None None None None None
       initial_World = Raise (ValueError msg) w').
Proof.
  split; [reflexivity|]. split.
  - apply (proj1 (@abstract_class_never_constructs abstract (zeros [2; 2; 2]%nat)
                    origin None None None None None None initial_World
                    (NotImplementedError "Override in subclass") eq_refl)).
    + reflexivity.
    + intros _. vm_compute. discriminate.
  - apply (proj2 (@abstract_class_never_constructs abstract (zeros [2; 2]%nat)
                    origin None None None None None None initial_World
                    (NotImplementedError "Override in subclass") eq_refl)).
    left. simpl. lia.
Defined.

(** The mesh of the cube is the square. *)
Lemma mesh_follows_base_model_witness :
  __init__ (zeros [2; 2; 2]%nat) origin None None None (Some 0%Q) (Some 1%Q) None
    initial_World = Ok cube initial_World /\
  base_model = inr square /\
  map texcoord (triangles cube) = square /\
  length (triangles cube) = length square.
Proof.
  split; [vm_compute; reflexivity|]. split; [reflexivity|].
  apply (mesh_follows_base_model (zeros [2; 2; 2]%nat) origin None None None
           (Some 0%Q) (Some 1%Q) None initial_World cube initial_World square);
    [vm_compute; reflexivity | reflexivity].
Defined.

(** The cube as constructed. *)
Lemma constructed_instance_is_fresh_witness :
  __init__ (zeros [2; 2; 2]%nat) origin None None None (Some 0%Q) (Some 1%Q) None
    initial_World = Ok cube initial_World /\
  (vao cube = -1 /\ vbo cube = -1 /\ tex cube = -1 /\ initialized cube = false) /\
  offset cube = origin /\
  (forall v, @None Q = Some v -> x_size cube = v) /\
  (forall v, @None Q = Some v -> y_size cube = v) /\
  (forall v, @None Q = Some v -> z_size cube = v) /\
  (forall v, Some 0%Q = Some v -> vmin cube = v) /\
  (forall v, Some 1%Q = Some v -> vmax cube = v) /\
  colormap cube = viridis.
Proof.
  split; [vm_compute; reflexivity|].
  apply (constructed_instance_is_fresh (zeros [2; 2; 2]%nat) origin None None None
           (Some 0%Q) (Some 1%Q) None initial_World cube initial_World).
  vm_compute; reflexivity.
Defined.

(** Creating the buffers of the cube twice. *)
Lemma createBuffers_again_releases_witness :
  proper_driver /\
  exists o1 w1 o2 a b,
    createBuffers (cube, initial_World) = Ok tt (o1, w1) /\
    createBuffers (o1, w1) =
      Ok tt (o2, extend (createBuffers_commands a b)
                   (extend [GlDeleteBuffers (vbo o1); GlDeleteVertexArrays (vao o1)] w1)) /\
    vao o2 = a /\ vbo o2 = b.
Proof.
  split; [exact demo_driver_is_proper|].
  apply (createBuffers_again_releases cube initial_World demo_driver_is_proper).
Defined.

(** Two uploads on the cube. *)
Lemma setTexture_allocates_once_witness :
  proper_driver /\
  shape (array cube) = [2; 2; 2]%nat /\
  exists o' w',
    setTexture (array cube) (cube, initial_World) = Ok tt (o', w') /\
    tex o' <> -1 /\
    setTexture (array cube) (o', w') =
      Ok tt (o', extend (setTexture_commands (tex o') 2 2 2
                          (uploaded o' (data (array cube)))) w').
Proof.
  split; [exact demo_driver_is_proper|]. split; [reflexivity|].
  apply (setTexture_allocates_once (array cube) (array cube) cube initial_World
           2 2 2 2 2 2 demo_driver_is_proper); reflexivity.
Defined.

(** A 2D array given to [setTexture] on the cube. *)
Lemma setTexture_rejects_non_3d_witness :
  length (shape (zeros [2; 2]%nat)) <> 3%nat /\
  exists msg,
    setTexture (zeros [2; 2]%nat) (cube, initial_World) =
      Raise (ValueError msg)
        (if tex cube =? -1
         then (set___tex (gen_texture (gl_calls initial_World)) cube,
               extend (createTexture_commands (gen_texture (gl_calls initial_World)))
                 (issue (GlGenTextures 1) initial_World))
         else (cube, initial_World)).
Proof.
  split; [simpl; lia|].
  apply (setTexture_rejects_non_3d (zeros [2; 2]%nat) cube initial_World).
  simpl; lia.
Defined.

(** The upload of the cube's field. *)
Lemma uploaded_image_is_full_witness :
  shape (array cube) = [2; 2; 2]%nat /\
  well_shaped (array cube) /\
  exists o' w' t img,
    setTexture (array cube) (cube, initial_World) = Ok tt (o', w') /\
    texture_of w' (tex o') = Some t /\
    image t = Some img /\
    Z.of_nat (length (img_pixels img))
    = img_width img * img_height img * img_depth img.
Proof.
  split; [reflexivity|]. split; [reflexivity|].
  apply (uploaded_image_is_full (array cube) cube initial_World 2 2 2); reflexivity.
Defined.

(** The ramp replaced by a reversed ramp, then initialized. *)
Lemma replacement_before_initialize_witness :
  let new := field [1; 1; 2]%nat [20; 10]%Q in
  initialized ramp = false /\ tex ramp = -1 /\
  shape (array ramp) = [1; 1; 2]%nat /\
  shape new = shape (array ramp) /\
  class_initialize initial_World
  = Ok tt {| gl_calls := []; stdout := [];
             cls__shader_program := 7; cls__class_initialized := true |} /\
  exists o1 o2 w2 t img,
    array_setter new (ramp, initial_World) = Ok tt (o1, initial_World) /\
    initialize (o1, initial_World) = Ok tt (o2, w2) /\
    array o2 = replacement ramp new /\
    texture_of w2 (tex o2) = Some t /\
    image t = Some img /\
    length (img_pixels img) = length (data new) /\
    (~ (vmin ramp == vmax ramp)%Q ->
     img_pixels img
     = map (fun x => ((x - vmin ramp) / (vmax ramp - vmin ramp))%Q)
         (data (replacement ramp new))).
Proof.
  intros new.
  split; [reflexivity|]. split; [reflexivity|]. split; [reflexivity|].
  split; [reflexivity|]. split; [reflexivity|].
  apply (replacement_before_initialize new ramp initial_World
           {| gl_calls := []; stdout := [];
              cls__shader_program := 7; cls__class_initialized := true |} 1 1 2);
    reflexivity.
Defined.

(** [initialize] on the cube when the shader build fails. *)
Lemma initialize_fails_only_with_class_initialize_witness :
  initialized cube = false /\
  shape (array cube) = [2; 2; 2]%nat /\
  (@initialize driver failing (cube, initial_World)
   = Raise (OtherError "shader compilation failed") (cube, initial_World)
   <-> exists w1,
         @class_initialize failing initial_World
         = Raise (OtherError "shader compilation failed") w1 /\
         (cube, initial_World) = (cube, w1)).
Proof.
  split; [reflexivity|]. split; [reflexivity|].
  apply (@initialize_fails_only_with_class_initialize driver failing
           cube initial_World 2 2 2); reflexivity.
Defined.

(** [initialize] on the cube. *)
Lemma initialize_acquires_resources_witness :
  proper_driver /\
  initialized cube = false /\
  shape (array cube) = [2; 2; 2]%nat /\
  class_initialize initial_World
  = Ok tt {| gl_calls := []; stdout := [];
             cls__shader_program := 7; cls__class_initialized := true |} /\
  exists o' w' w4 pc pf,
    initialize (cube, initial_World) = Ok tt (o', w') /\
    initialized o' = true /\
    vao o' <> -1 /\ vbo o' <> -1 /\ tex o' <> -1 /\
    w' = extend
           (sampler_commands pc pf
              (uniform_location (gl_calls w4) pc "cmap")
              (uniform_location (GlGetUniformLocation pc "cmap" :: gl_calls w4)
                 pf "field"))
           w4.
Proof.
  split; [exact demo_driver_is_proper|]. split; [reflexivity|].
  split; [reflexivity|]. split; [reflexivity|].
  apply (initialize_acquires_resources cube initial_World
           {| gl_calls := []; stdout := [];
              cls__shader_program := 7; cls__class_initialized := true |} 2 2 2
           demo_driver_is_proper); reflexivity.
Defined.

(** Rendering the initialized cube. *)
Lemma render_draws_whole_mesh_witness :
  @super_render plane tt tt (snd live) = Ok tt (snd live) /\
  let w' := extend (render_commands (fst live)) (snd live) in
  @render plane tt tt (fst live, snd live) = Ok tt (fst live, w') /\
  head (gl_calls w')
  = Some (GlDrawArrays GL_TRIANGLES 0 (Z.of_nat (length (triangles (fst live))))) /\
  active_unit (gl_state w') = GL_TEXTURE1 /\
  current_3d (gl_state w') = tex (fst live) /\
  (is_Some (texture_of (snd live) (tex (fst live))) ->
   forall n, texture_of w' n = texture_of (snd live) n).
Proof.
  split; [reflexivity|].
  apply (@render_draws_whole_mesh plane tt tt (fst live) (snd live) (snd live)).
  reflexivity.
Defined.

(** The window of the ramp. *)
Lemma window_endpoints_and_order_witness :
  ~ (vmin ramp == vmax ramp)%Q /\
  (normalize (vmin ramp) (vmax ramp) (vmin ramp) == 0)%Q /\
  (normalize (vmin ramp) (vmax ramp) (vmax ramp) == 1)%Q /\
  ((vmin ramp < vmax ramp)%Q -> forall x y, (x <= y)%Q ->
     (normalize (vmin ramp) (vmax ramp) x <= normalize (vmin ramp) (vmax ramp) y)%Q) /\
  ((vmax ramp < vmin ramp)%Q -> forall x y, (x <= y)%Q ->
     (normalize (vmin ramp) (vmax ramp) y <= normalize (vmin ramp) (vmax ramp) x)%Q).
Proof.
  assert (~ (vmin ramp == vmax ramp)%Q) as Hne by (vm_compute; discriminate).
  split; [exact Hne|].
  apply (window_endpoints_and_order ramp Hne).
Defined.

End MoreWitnesses.
